(** * numerixpy: finite-difference differentiation and quadrature

    A shallow embedding of [numerixpy/differential.py] and
    [numerixpy/integral.py], with the properties of their specification
    stated and proved on it.

    Modelling conventions.
    - Python and NumPy reals are exact rationals ([Q], compared with [==]);
      the module [B64] gives the differentiation operators a second time,
      over binary64 floats, for the statements that depend on rounding.
    - A class is a module with a record [t] for the instance; [__init__]
      returns the instance, [__call__] takes it as [self].
    - Exceptions, [print] and the calls made to the user's function are
      explicit: a computation yields the trace of its events together with
      either a value or the exception raised.
    - The class-level [table] dictionaries are finite maps keyed by
      [(method, order)]. *)

From Stdlib Require Import QArith Qabs ZArith List String Ascii Lia Lqa.
From Stdlib Require Import DecimalString.
From Stdlib Require Import PrimFloat SpecFloat FloatOps Uint63.
From stdpp Require Import base gmap strings.
Import ListNotations.

Open Scope Z_scope.
Open Scope Q_scope.
Open Scope string_scope.
Open Scope list_scope.

(** ** The Python fragment used by the sources *)

Module Py.

Inductive exn : Type :=
| SystemExit
| NotImplementedError (msg : string)
| ZeroDivisionError
| ValueError
| TypeError.

Inductive event : Type :=
| Print (line : string)
| CallF (x : Q).

Inductive outcome (A : Type) : Type :=
| Ok (a : A)
| Raise (e : exn).
Arguments Ok {A} a.
Arguments Raise {A} e.

(** A computation: the events it emitted, in order, and how it ended. *)
Definition M (A : Type) : Type := (list event * outcome A)%type.

Definition ret {A} (a : A) : M A := ([], Ok a).

Definition bind {A B} (m : M A) (k : A -> M B) : M B :=
  match m with
  | (tr, Ok a) => let (tr', r) := k a in (tr ++ tr', r)
  | (tr, Raise e) => (tr, Raise e)
  end.

Definition raise {A} (e : exn) : M A := ([], Raise e).

Definition print (line : string) : M unit := ([Print line], Ok tt).

(** [sys.exit()] raises [SystemExit]. *)
Definition sys_exit {A} : M A := raise SystemExit.

(** Calling the user's function [f] at [x]. *)
Definition call (f : Q -> Q) (x : Q) : M Q := ([CallF x], Ok (f x)).

(** The exception classes a handler may name: [SystemExit] derives from
    [BaseException] only, so [except Exception] lets it through. *)
Definition is_SystemExit (e : exn) : bool :=
  match e with
  | SystemExit => true
  | _ => false
  end.

Definition is_Exception (e : exn) : bool := negb (is_SystemExit e).

(** [try: m except <class> as e: handler e], where [caught] tells the
    exceptions of the class. *)
Definition try_except {A} (m : M A) (caught : exn -> bool)
    (handler : exn -> M A) : M A :=
  match m with
  | (tr, Raise e) =>
      if caught e then let (tr', r) := handler e in (tr ++ tr', r)
      else (tr, Raise e)
  | (tr, Ok a) => (tr, Ok a)
  end.

Definition trace {A} (m : M A) : list event := fst m.
Definition result {A} (m : M A) : outcome A := snd m.

(** A list comprehension [[g i for i in l]] with an effectful body. *)
Fixpoint comprehension {A B} (g : A -> M B) (l : list A) : M (list B) :=
  match l with
  | [] => ret []
  | a :: l' =>
      bind (g a) (fun b =>
      bind (comprehension g l') (fun bs => ret (b :: bs)))
  end.

(** [range(lo, hi)]: empty when [hi <= lo]. *)
Definition range (lo hi : Z) : list Z :=
  map (fun k => (lo + Z.of_nat k)%Z) (seq 0 (Z.to_nat (hi - lo))).

(** [x / y] on Python numbers. *)
Definition truediv (x y : Q) : M Q :=
  if Qeq_bool y 0 then raise ZeroDivisionError else ret (x / y).

(** [str.title()] on ASCII text. *)
Definition is_upper (c : ascii) : bool :=
  ((65 <=? nat_of_ascii c) && (nat_of_ascii c <=? 90))%nat.
Definition is_lower (c : ascii) : bool :=
  ((97 <=? nat_of_ascii c) && (nat_of_ascii c <=? 122))%nat.
Definition to_upper (c : ascii) : ascii :=
  if is_lower c then ascii_of_nat (nat_of_ascii c - 32) else c.
Definition to_lower (c : ascii) : ascii :=
  if is_upper c then ascii_of_nat (nat_of_ascii c + 32) else c.

Fixpoint title_from (prev_cased : bool) (s : string) : string :=
  match s with
  | EmptyString => EmptyString
  | String c s' =>
      if is_upper c || is_lower c
      then String (if prev_cased then to_lower c else to_upper c)
                  (title_from true s')
      else String c (title_from false s')
  end.
Definition title (s : string) : string := title_from false s.

(** [str(i)] for an integer. *)
Definition str (i : Z) : string := NilZero.string_of_int (Z.to_int i).

Definition newline : string := String (ascii_of_nat 10) EmptyString.

End Py.

Declare Scope py_scope.
Delimit Scope py_scope with py.
Notation "'do' x <- m ;; k" := (Py.bind m (fun x => k))
  (at level 10, x name, m at level 99, k at level 200) : py_scope.

(** ** The NumPy fragment *)

Module Np.

(** What [np.array] builds here: from [None] a 0-d object array, from a
    list of numbers a vector. *)
Inductive ndarray : Type :=
| NoneArray
| Vec (l : list Q).

Definition array (o : option (list Q)) : ndarray :=
  match o with
  | None => NoneArray
  | Some l => Vec l
  end.

Definition nonzero (q : Q) : bool := negb (Qeq_bool q 0).

(** [a.any()]: some element is truthy; [None] is not. *)
Definition any (a : ndarray) : bool :=
  match a with
  | NoneArray => false
  | Vec l => existsb nonzero l
  end.

Fixpoint dot (u v : list Q) : Q :=
  match u, v with
  | a :: u', b :: v' => a * b + dot u' v'
  | _, _ => 0
  end.

(** [a @ b] on vectors; the shapes must agree. *)
Definition matmul (a b : ndarray) : Py.M Q :=
  match a, b with
  | Vec u, Vec v =>
      if (length u =? length v)%nat then Py.ret (dot u v)
      else Py.raise Py.ValueError
  | _, _ => Py.raise Py.TypeError
  end.

(** A NumPy scalar: a number, or [inf]/[nan]. *)
Inductive scalar : Type :=
| Finite (q : Q)
| NonFinite.

(** Division of a NumPy scalar: by zero it gives [inf] or [nan] and does
    not raise. *)
Definition truediv (x y : Q) : scalar :=
  if Qeq_bool y 0 then NonFinite else Finite (x / y).


End Np.

(** ** [differential.py] *)

Module Diff.

(** The dictionary display, entry by entry. *)
Definition literal : list ((string * Z) * list Q) :=
  [
    (("forward", 1%Z), [0; 0; 0; 0; -1; 1; 0; 0; 0]);
    (("forward", 2%Z), [0; 0; 0; 0; -3/2; 2; -1/2; 0; 0]);
    (("backward", 1%Z), [0; 0; 0; -1; 1; 0; 0; 0; 0]);
    (("backward", 2%Z), [0; 0; 1/2; -2; 3/2; 0; 0; 0; 0]);
    (("forward", 3%Z), [0; 0; 0; -2/6; -1/2; 1; -1/6; 0; 0]);
    (("central", 2%Z), [0; 0; 0; -1/2; 0; 1/2; 0; 0; 0]);
    (("central", 4%Z), [0; 0; 1/12; -2/3; 0; 2/3; -1/12; 0; 0]);
    (("central", 6%Z), [0; -1/60; 3/20; -3/4; 0; 3/4; -3/20; 1/60; 0]);
    (("central", 8%Z),
      [1/280; -4/105; 12/60; -4/5; 0; 4/5; -12/60; 4/105; -1/280])
  ].

Definition table : gmap (string * Z) (list Q) := list_to_map literal.

Record t : Type := Build {
  f : Q -> Q;
  h : Q;
  method : string;
  order : Z;
  weights : Np.ndarray
}.

Definition default_h : Q := 1e-5.
Definition default_method : string := "central".
Definition default_order : Z := 2.

Definition not_implemented (method : string) (order : Z) : string :=
  (Py.title method ++ " method with order of " ++ Py.str order
     ++ " is not implemented!")%string.

Definition __init__ (f : Q -> Q) (h : Q) (method : string) (order : Z)
  : Py.M t :=
  let weights := Np.array (table !! (method, order)) in
  if negb (Np.any weights) then
    (do _ <- Py.print (not_implemented method order) ;; Py.sys_exit)%py
  else
    Py.ret (Build f h method order weights).

Definition __call__ (self : t) (x : Q) : Py.M Np.scalar :=
  (do f_values <- Py.comprehension
                 (fun i => Py.call (f self) (x + inject_Z i * h self))
                 (Py.range (-4) 5) ;;
   do s <- Np.matmul (weights self) (Np.Vec f_values) ;;
   Py.ret (Np.truediv s (h self)))%py.

End Diff.

Module Diff2.

Definition literal : list ((string * Z) * list Q) :=
  [
    (("forward", 1%Z), [0; 0; 0; 0; 1; -2; 1; 0; 0]);
    (("forward", 2%Z), [0; 0; 0; 0; 2; -5; 4; -1; 0]);
    (("backward", 1%Z), [0; 0; 1; -2; 1; 0; 0; 0; 0]);
    (("backward", 2%Z), [0; -1; 4; -5; 2; 0; 0; 0; 0]);
    (("central", 2%Z), [0; 0; 0; 1; -2; 1; 0; 0; 0]);
    (("central", 4%Z), [0; 0; -1/12; 4/3; -5/2; 4/3; -1/12; 0; 0])
  ].

Definition table : gmap (string * Z) (list Q) := list_to_map literal.

Record t : Type := Build {
  f : Q -> Q;
  h : Q;
  method : string;
  order : Z;
  weights : Np.ndarray
}.

Definition default_h : Q := 1e-5.
Definition default_method : string := "central".
Definition default_order : Z := 2.

Definition not_implemented (method : string) (order : Z) : string :=
  (Py.title method ++ " method with order of " ++ Py.str order
     ++ " is not implemented!" ++ Py.newline ++ "Program exited!")%string.

Definition __init__ (f : Q -> Q) (h : Q) (method : string) (order : Z)
  : Py.M t :=
  let weights := Np.array (table !! (method, order)) in
  if negb (Np.any weights) then
    (do _ <- Py.print (not_implemented method order) ;; Py.sys_exit)%py
  else
    Py.ret (Build f h method order weights).

Definition __call__ (self : t) (x : Q) : Py.M Np.scalar :=
  (do f_values <- Py.comprehension
                 (fun i => Py.call (f self) (x + inject_Z i * h self))
                 (Py.range (-4) 5) ;;
   do s <- Np.matmul (weights self) (Np.Vec f_values) ;;
   Py.ret (Np.truediv s (h self ^ 2)))%py.

End Diff2.

(** ** [integral.py] *)

Module Integral.

Record t : Type := Build {
  f : Q -> Q;
  a : Q;
  b : Q;
  n : Z;
  method : string;
  h : Q;
  weights : Np.ndarray
}.

Definition default_method : string := "trapz".

Definition not_implemented (method : string) : string :=
  (Py.title method ++ " method is not implemented yet!")%string.

(** The three loops that fill [weights] by [append]. *)
Definition trapezoidal_weights (h : Q) (n : Z) : list Q :=
  let weights := [h / 2] in
  let weights :=
    fold_left (fun ws (_ : Z) => ws ++ [h]) (Py.range 1 (n - 1)) weights in
  weights ++ [h / 2].

Definition midpoint_weights (h : Q) (n : Z) : list Q :=
  fold_left (fun ws (_ : Z) => ws ++ [h]) (Py.range 0 n) [].

Definition simpson_weights (h : Q) (n : Z) : list Q :=
  let weights := [h / 3] in
  let weights :=
    fold_left
      (fun ws (i : Z) =>
         if (i mod 2 =? 1)%Z then ws ++ [(4 * h) / 3]
         else ws ++ [(2 * h) / 3])
      (Py.range 1 (n - 1)) weights in
  weights ++ [h / 3].

Definition __init__ (f : Q -> Q) (a b : Q) (n : Z) (method : string)
  : Py.M t :=
  (do h <- (if (method =? "midpoint")%string
         then Py.truediv (b - a) (inject_Z n)
         else Py.truediv (b - a) (inject_Z (n - 1))) ;;
   do weights <-
     (if (method =? "trapezoidal")%string then
        Py.ret (trapezoidal_weights h n)
      else if (method =? "midpoint")%string then
        Py.ret (midpoint_weights h n)
      else if (method =? "simpson")%string then
        Py.ret (simpson_weights h n)
      else
        Py.raise (Py.NotImplementedError (not_implemented method))) ;;
   Py.ret (Build f a b n method h (Np.array (Some weights))))%py.

Definition __call__ (self : t) : Py.M Q :=
  (do f_values <- Py.comprehension
                 (fun i => Py.call (f self) (a self + inject_Z i * h self))
                 (Py.range 0 (n self)) ;;
   Np.matmul (weights self) (Np.Vec f_values))%py.

End Integral.

(** ** Specification-side notions *)

(** [sum_from lo k g] is [g lo + g (lo+1) + ... + g (lo+k-1)]. *)
Fixpoint sum_from (lo : Z) (k : nat) (g : Z -> Q) : Q :=
  match k with
  | O => 0
  | S k' => g lo + sum_from (lo + 1) k' g
  end.

(** The sum of [g i] for [i] from [lo] to [hi], both included. *)
Definition sigma (lo hi : Z) (g : Z -> Q) : Q :=
  sum_from lo (Z.to_nat (hi - lo + 1)) g.

(** The weight of a 9-wide stencil at offset [i], for [i] in -4..4. *)
Definition weight_at (ws : list Q) (i : Z) : Q :=
  nth (Z.to_nat (i + 4)) ws 0.

(** The stencil sum of the specification:
    the sum over i from -4 to 4 of w_i * f (x + i*h). *)
Definition stencil_sum (ws : list Q) (f : Q -> Q) (h x : Q) : Q :=
  sigma (-4) 4 (fun i => weight_at ws i * f (x + inject_Z i * h)).

(** The nine offsets of the sampling window. *)
Definition offsets : list Z := [-4; -3; -2; -1; 0; 1; 2; 3; 4]%Z.

Definition sum_list (l : list Q) : Q := fold_right Qplus 0 l.

(** What every row of a table satisfies: nine coefficients, one of them
    nonzero, and a zero sum. *)
Definition row_ok (ws : list Q) : bool :=
  (length ws =? 9)%nat && existsb Np.nonzero ws && Qeq_bool (sum_list ws) 0.


(** *** Finite-difference stencils by Taylor-series elimination *)

(** The [k]-th moment of a 9-wide stencil: the sum over i of w_i * i^k. *)
Definition moment (ws : list Q) (k : nat) : Q :=
  sigma (-4) 4 (fun i => weight_at ws i * inject_Z (i ^ Z.of_nat k)).

(** What the [k]-th moment of a stencil for the [d]-th derivative must be:
    [d!] for [k = d], zero otherwise. *)
Definition taylor_target (d k : nat) : Q :=
  if (k =? d)%nat then inject_Z (Z.of_nat (fact d)) else 0.

(** [ws] approximates the [d]-th derivative with accuracy order [p]: the
    Taylor terms of degree below [d + p], other than the [d]-th, cancel. *)
Definition eliminates (d p : nat) (ws : list Q) : Prop :=
  forall k, (k < d + p)%nat -> moment ws k == taylor_target d k.

Definition eliminatesb (d p : nat) (ws : list Q) : bool :=
  forallb (fun k => Qeq_bool (moment ws k) (taylor_target d k))
    (seq 0 (d + p)).

(** [ws] is zero at every offset outside [lo..hi]. *)
Definition confined (lo hi : Z) (ws : list Q) : Prop :=
  forall i, In i offsets -> (i < lo \/ hi < i)%Z -> weight_at ws i == 0.

(** A stencil of order [p] for the [d]-th derivative on the offsets
    [lo..hi]. *)
Definition is_stencil (d p : nat) (lo hi : Z) (ws : list Q) : Prop :=
  length ws = 9%nat /\ confined lo hi ws /\ eliminates d p ws.

(** [ws] is the one stencil of order [p] for the [d]-th derivative on the
    offsets [lo..hi]. *)
Definition the_stencil (d p : nat) (lo hi : Z) (ws : list Q) : Prop :=
  is_stencil d p lo hi ws /\
  forall v, is_stencil d p lo hi v -> Forall2 Qeq v ws.

(** The offsets of the standard formulas: a forward difference of order
    [p] for the [d]-th derivative samples [x, x+h, ..., x+(d+p-1)h], a
    backward one mirrors it, a central one is symmetric around [x]. *)
Definition standard_window (method : string) (d p : nat) : option (Z * Z) :=
  let width := Z.of_nat (d + p - 1) in
  if (method =? "forward")%string then Some (0, width)%Z
  else if (method =? "backward")%string then Some (- width, 0)%Z
  else if (method =? "central")%string then Some (- (width / 2), width / 2)%Z
  else None.

(** [ws] holds the standard finite-difference coefficients of the given
    method and order for the [d]-th derivative. *)
Definition standard (method : string) (d : nat) (order : Z) (ws : list Q)
  : Prop :=
  exists lo hi,
    standard_window method d (Z.to_nat order) = Some (lo, hi) /\
    the_stencil d (Z.to_nat order) lo hi ws.

(** The (method, order) pairs the specification lists as supported. *)
Definition supported_first : list (string * Z) :=
  [("forward", 1); ("forward", 2); ("forward", 3);
   ("backward", 1); ("backward", 2);
   ("central", 2); ("central", 4); ("central", 6); ("central", 8)]%Z.

Definition supported_second : list (string * Z) :=
  [("forward", 1); ("forward", 2); ("backward", 1); ("backward", 2);
   ("central", 2); ("central", 4)]%Z.

(** *** Accuracy on the cube *)

Definition cube (x : Q) : Q := x ^ 3.

(** [Diff(f, h, method, order)(x)], as the tests of the module call it. *)
Definition derivative (f : Q -> Q) (h : Q) (method : string) (order : Z)
    (x : Q) : Py.M Np.scalar :=
  (do op <- Diff.__init__ f h method order ;; Diff.__call__ op x)%py.

(** [Integral(f, a, b, n, method)()]. *)
Definition integrate (f : Q -> Q) (a b : Q) (n : Z) (method : string)
  : Py.M Q :=
  (do op <- Integral.__init__ f a b n method ;; Integral.__call__ op)%py.

Definition abs_error (r : Py.outcome Np.scalar) (exact : Q) : option Q :=
  match r with
  | Py.Ok (Np.Finite v) => Some (Qabs (v - exact))
  | _ => None
  end.

(** The error of the central difference of the given order on the cube at
    [x = 2] with [h = 1e-5]; the derivative there is 12. *)
Definition central_error (order : Z) : option Q :=
  abs_error (Py.result (derivative cube 1e-5 "central" order 2)) 12.

(** The rule names the quadrature recognises. *)
Definition recognized (method : string) : Prop :=
  method = "trapezoidal" \/ method = "midpoint" \/ method = "simpson".

(** *** Polynomials, for the exactness results *)

(** The polynomial with the coefficients [cs], lowest degree first. *)
Fixpoint poly (cs : list Q) (x : Q) : Q :=
  match cs with
  | [] => 0
  | c :: cs' => c + x * poly cs' x
  end.

(** The coefficients [k * c_k, (k+1) * c_(k+1), ...] from [c_k, ...]. *)
Fixpoint deriv_from (k : nat) (cs : list Q) : list Q :=
  match cs with
  | [] => []
  | c :: cs' => inject_Z (Z.of_nat k) * c :: deriv_from (S k) cs'
  end.

(** The derivative of a polynomial. *)
Definition poly_deriv (cs : list Q) : list Q :=
  match cs with
  | [] => []
  | _ :: cs' => deriv_from 1 cs'
  end.

(** [Diff2(f, h, method, order)(x)], as the tests of the module call it. *)
Definition derivative2 (f : Q -> Q) (h : Q) (method : string) (order : Z)
    (x : Q) : Py.M Np.scalar :=
  (do op <- Diff2.__init__ f h method order ;; Diff2.__call__ op x)%py.

(** The integral over [a, b] of the affine function c*x + d. *)
Definition affine_integral (c d a b : Q) : Q :=
  c * (b * b - a * a) / 2 + d * (b - a).

(** A primitive of the cubic c0 + c1 x + c2 x^2 + c3 x^3. *)
Definition cubic_primitive (c0 c1 c2 c3 : Q) : list Q :=
  [0; c0; c1 / 2; c2 / 3; c3 / 4].

(** The weight the quadrature rules put on the sample of index [i]. *)
Definition trapezoidal_weight (h : Q) (n i : Z) : Q :=
  if (i =? 0)%Z || (i =? n - 1)%Z then h / 2 else h.

Definition simpson_weight (h : Q) (n i : Z) : Q :=
  if (i =? 0)%Z || (i =? n - 1)%Z then h / 3
  else if Z.odd i then 4 * h / 3 else 2 * h / 3.

(** The coefficients of the monomial x^k. *)
Fixpoint monomial (k : nat) : list Q :=
  match k with
  | O => [1]
  | S k' => 0 :: monomial k'
  end.


(** ** The differentiation operators in binary64

    The values the interpreter computes: every number is a binary64 float,
    every operation rounds to nearest. *)

Module B64.

(** [float(i)] for a small integer. *)
Definition of_int (i : Z) : float :=
  if (i <? 0)%Z then (- of_uint63 (Uint63.of_Z (- i)))%float
  else of_uint63 (Uint63.of_Z i).

(** The rows of [Diff.table]: each entry [a/b] is the float quotient. *)
Definition literal1 : list ((string * Z) * list float) :=
  [
    (("forward", 1%Z), [0; 0; 0; 0; -1; 1; 0; 0; 0]);
    (("forward", 2%Z), [0; 0; 0; 0; -3/2; 2; -1/2; 0; 0]);
    (("backward", 1%Z), [0; 0; 0; -1; 1; 0; 0; 0; 0]);
    (("backward", 2%Z), [0; 0; 1/2; -2; 3/2; 0; 0; 0; 0]);
    (("forward", 3%Z), [0; 0; 0; -2/6; -1/2; 1; -1/6; 0; 0]);
    (("central", 2%Z), [0; 0; 0; -1/2; 0; 1/2; 0; 0; 0]);
    (("central", 4%Z), [0; 0; 1/12; -2/3; 0; 2/3; -1/12; 0; 0]);
    (("central", 6%Z), [0; -1/60; 3/20; -3/4; 0; 3/4; -3/20; 1/60; 0]);
    (("central", 8%Z),
      [1/280; -4/105; 12/60; -4/5; 0; 4/5; -12/60; 4/105; -1/280])
  ]%float.

(** The rows of [Diff2.table]. *)
Definition literal2 : list ((string * Z) * list float) :=
  [
    (("forward", 1%Z), [0; 0; 0; 0; 1; -2; 1; 0; 0]);
    (("forward", 2%Z), [0; 0; 0; 0; 2; -5; 4; -1; 0]);
    (("backward", 1%Z), [0; 0; 1; -2; 1; 0; 0; 0; 0]);
    (("backward", 2%Z), [0; -1; 4; -5; 2; 0; 0; 0; 0]);
    (("central", 2%Z), [0; 0; 0; 1; -2; 1; 0; 0; 0]);
    (("central", 4%Z), [0; 0; -1/12; 4/3; -5/2; 4/3; -1/12; 0; 0])
  ]%float.

Definition table1 : gmap (string * Z) (list float) := list_to_map literal1.
Definition table2 : gmap (string * Z) (list float) := list_to_map literal2.

(** [weights @ f_values]: the products are accumulated in index order. *)
Fixpoint dot_from (acc : float) (u v : list float) : float :=
  match u, v with
  | a :: u', b :: v' => dot_from (acc + a * b)%float u' v'
  | _, _ => acc
  end.

Definition dot (u v : list float) : float := dot_from 0%float u v.

(** The step of the tests, the literal [1e-5]. *)
Definition default_h : float := (1 / 100000)%float.

(** [weights.any()] on a row. *)
Definition any (ws : list float) : bool :=
  existsb (fun w => negb (w =? 0)%float) ws.

(** The nine samples [[f(x + i*h) for i in range(-4, 5)]]. *)
Definition f_values (f : float -> float) (h x : float) : list float :=
  map (fun i => f (x + of_int i * h)%float) (Py.range (-4) 5).

(** [Diff(f, h, method, order)(x)]; [None] when construction exits. *)
Definition derivative (f : float -> float) (h : float) (method : string)
    (order : Z) (x : float) : option float :=
  match table1 !! (method, order) with
  | Some ws =>
      if any ws then Some (dot ws (f_values f h x) / h)%float else None
  | None => None
  end.

(** [Diff2(f, h, method, order)(x)]; [h**2] is the rounded square. *)
Definition derivative2 (f : float -> float) (h : float) (method : string)
    (order : Z) (x : float) : option float :=
  match table2 !! (method, order) with
  | Some ws =>
      if any ws then Some (dot ws (f_values f h x) / (h * h))%float
      else None
  | None => None
  end.

(** [x ** 3]: the cube, rounded once. *)
Definition pow3 (x : float) : float :=
  match Prim2SF x with
  | S754_finite s m e =>
      SF2Prim (binary_round_aux prec emax s (Zpos (m * m * m)) (3 * e)
                 loc_Exact)
  | _ => (x * x * x)%float
  end.

(** [x * x * x]: the cube, rounded twice. *)
Definition cube (x : float) : float := (x * x * x)%float.

(** The distance to 12 of the central difference of the given order on the
    cube [f] at [x = 2] with [h = 1e-5]. *)
Definition central_error (f : float -> float) (order : Z) : option float :=
  match derivative f default_h "central" order 2%float with
  | Some v => Some (abs (v - 12))%float
  | None => None
  end.

End B64.

(** ** Generic facts about the Python fragment *)

Section PyFacts.

Lemma range_offsets : Py.range (-4) 5 = offsets.
Proof. reflexivity. Qed.

Lemma length_range (lo hi : Z) :
  length (Py.range lo hi) = Z.to_nat (hi - lo).
Proof. unfold Py.range. now rewrite length_map, length_seq. Qed.

Lemma comprehension_call (f : Q -> Q) (g : Z -> Q) (l : list Z) :
  Py.comprehension (fun i => Py.call f (g i)) l
  = (map (fun i => Py.CallF (g i)) l, Py.Ok (map (fun i => f (g i)) l)).
Proof.
  induction l as [|i l IH]; [reflexivity|].
  cbn [Py.comprehension map]. rewrite IH.
  unfold Py.bind, Py.call, Py.ret. cbn. now rewrite app_nil_r.
Qed.



Lemma matmul_same_length (u v : list Q) :
  length u = length v ->
  Np.matmul (Np.Vec u) (Np.Vec v) = Py.ret (Np.dot u v).
Proof.
  intros E. unfold Np.matmul. rewrite E, Nat.eqb_refl. reflexivity.
Qed.

Lemma dot_stencil (w0 w1 w2 w3 w4 w5 w6 w7 w8 : Q) f h x :
  let ws := [w0; w1; w2; w3; w4; w5; w6; w7; w8] in
  Np.dot ws (map (fun i => f (x + inject_Z i * h)) offsets)
  == stencil_sum ws f h x.
Proof.
  cbv [stencil_sum sigma sum_from weight_at Np.dot map offsets
       Z.to_nat Z.add Z.sub Z.opp Pos.to_nat Pos.iter_op Init.Nat.add
       Pos.add Pos.succ Z.pos_sub Pos.pred_double Z.double Z.succ_double
       Z.pred_double nth Pos.add_carry].
  ring.
Qed.

End PyFacts.

(** ** The stencil tables, row by row *)

Section Rows.

Variable literal : list ((string * Z) * list Q).
Hypothesis literal_ok : forallb (fun e => row_ok (snd e)) literal = true.

Lemma lookup_literal (k : string * Z) (ws : list Q) :
  (list_to_map literal : gmap (string * Z) (list Q)) !! k = Some ws ->
  In (k, ws) literal.
Proof.
  intros H. apply elem_of_list_to_map_2 in H.
  now apply list_elem_of_In.
Qed.

Lemma lookup_row_ok (k : string * Z) (ws : list Q) :
  (list_to_map literal : gmap (string * Z) (list Q)) !! k = Some ws ->
  row_ok ws = true.
Proof.
  intros H. apply lookup_literal in H.
  rewrite forallb_forall in literal_ok.
  exact (literal_ok _ H).
Qed.

End Rows.

Lemma row_ok_length ws : row_ok ws = true -> length ws = 9%nat.
Proof.
  unfold row_ok. rewrite !andb_true_iff, Nat.eqb_eq. tauto.
Qed.

Lemma row_ok_any ws : row_ok ws = true -> Np.any (Np.Vec ws) = true.
Proof.
  unfold row_ok. rewrite !andb_true_iff. cbn. tauto.
Qed.


Lemma any_Exists ws :
  Np.any (Np.Vec ws) = true -> Exists (fun w => ~ w == 0) ws.
Proof.
  cbn. rewrite existsb_exists, Exists_exists.
  intros (w & Hin & Hw). exists w. split; [now apply list_elem_of_In|].
  unfold Np.nonzero in Hw. apply negb_true_iff in Hw.
  intros E. apply Qeq_bool_iff in E. congruence.
Qed.

Lemma Diff_row_ok m o ws :
  Diff.table !! (m, o) = Some ws -> row_ok ws = true.
Proof. apply lookup_row_ok. vm_compute. reflexivity. Qed.

Lemma Diff2_row_ok m o ws :
  Diff2.table !! (m, o) = Some ws -> row_ok ws = true.
Proof. apply lookup_row_ok. vm_compute. reflexivity. Qed.

(** ** Construction of the differentiation operators *)

Lemma Diff_init_supported f h m o ws :
  Diff.table !! (m, o) = Some ws ->
  Diff.__init__ f h m o = Py.ret (Diff.Build f h m o (Np.Vec ws)).
Proof.
  intros H. unfold Diff.__init__. rewrite H. cbn [Np.array].
  now rewrite (row_ok_any _ (Diff_row_ok _ _ _ H)).
Qed.

Lemma Diff2_init_supported f h m o ws :
  Diff2.table !! (m, o) = Some ws ->
  Diff2.__init__ f h m o = Py.ret (Diff2.Build f h m o (Np.Vec ws)).
Proof.
  intros H. unfold Diff2.__init__. rewrite H. cbn [Np.array].
  now rewrite (row_ok_any _ (Diff2_row_ok _ _ _ H)).
Qed.

Lemma Diff_init_unsupported f h m o :
  Diff.table !! (m, o) = None ->
  Diff.__init__ f h m o
  = ([Py.Print (Diff.not_implemented m o)], Py.Raise Py.SystemExit).
Proof. intros H. unfold Diff.__init__. rewrite H. reflexivity. Qed.

Lemma Diff2_init_unsupported f h m o :
  Diff2.table !! (m, o) = None ->
  Diff2.__init__ f h m o
  = ([Py.Print (Diff2.not_implemented m o)], Py.Raise Py.SystemExit).
Proof. intros H. unfold Diff2.__init__. rewrite H. reflexivity. Qed.

(** ** Evaluation of the differentiation operators *)

Lemma Diff_call_eq f h m o ws x :
  length ws = 9%nat ->
  Diff.__call__ (Diff.Build f h m o (Np.Vec ws)) x
  = (map (fun i => Py.CallF (x + inject_Z i * h)) offsets,
     Py.Ok (Np.truediv
              (Np.dot ws (map (fun i => f (x + inject_Z i * h)) offsets)) h)).
Proof.
  intros L. unfold Diff.__call__. cbn [Diff.f Diff.h Diff.weights].
  rewrite range_offsets, comprehension_call.
  cbn [Py.bind]. rewrite matmul_same_length by (now rewrite L).
  cbn. now rewrite ?app_nil_r.
Qed.

Lemma Diff2_call_eq f h m o ws x :
  length ws = 9%nat ->
  Diff2.__call__ (Diff2.Build f h m o (Np.Vec ws)) x
  = (map (fun i => Py.CallF (x + inject_Z i * h)) offsets,
     Py.Ok (Np.truediv
              (Np.dot ws (map (fun i => f (x + inject_Z i * h)) offsets))
              (h ^ 2))).
Proof.
  intros L. unfold Diff2.__call__. cbn [Diff2.f Diff2.h Diff2.weights].
  rewrite range_offsets, comprehension_call.
  cbn [Py.bind]. rewrite matmul_same_length by (now rewrite L).
  cbn. now rewrite ?app_nil_r.
Qed.

Lemma nine_elements (ws : list Q) :
  length ws = 9%nat ->
  exists w0 w1 w2 w3 w4 w5 w6 w7 w8,
    ws = [w0; w1; w2; w3; w4; w5; w6; w7; w8].
Proof.
  intros L.
  do 9 (destruct ws as [|? ws]; [discriminate L|]).
  destruct ws; [|discriminate L]. repeat eexists.
Qed.

Lemma dot_stencil_sum ws f h x :
  length ws = 9%nat ->
  Np.dot ws (map (fun i => f (x + inject_Z i * h)) offsets)
  == stencil_sum ws f h x.
Proof.
  intros L. destruct (nine_elements ws L)
    as (w0 & w1 & w2 & w3 & w4 & w5 & w6 & w7 & w8 & ->).
  apply dot_stencil.
Qed.



(** ** Theorems about the differentiation operators *)


(** C4: for a (method, order) pair with no entry in the table, construction
    prints the message and raises [SystemExit]: no operator is returned,
    [f] is never called, and a caller that catches [SystemExit] goes on
    with its handler. This holds for both variants. *)
Theorem C4_unsupported_pair_raises (f : Q -> Q) (h : Q) (m : string) (o : Z) :
  (Diff.table !! (m, o) = None ->
   Diff.__init__ f h m o
   = ([Py.Print (Diff.not_implemented m o)], Py.Raise Py.SystemExit) /\
   (forall op, Py.result (Diff.__init__ f h m o) <> Py.Ok op) /\
   (forall x, ~ In (Py.CallF x) (Py.trace (Diff.__init__ f h m o))) /\
   (forall handler,
      Py.try_except (Diff.__init__ f h m o) Py.is_SystemExit handler
      = Py.bind (Py.print (Diff.not_implemented m o))
          (fun _ => handler Py.SystemExit))) /\
  (Diff2.table !! (m, o) = None ->
   Diff2.__init__ f h m o
   = ([Py.Print (Diff2.not_implemented m o)], Py.Raise Py.SystemExit) /\
   (forall op, Py.result (Diff2.__init__ f h m o) <> Py.Ok op) /\
   (forall x, ~ In (Py.CallF x) (Py.trace (Diff2.__init__ f h m o))) /\
   (forall handler,
      Py.try_except (Diff2.__init__ f h m o) Py.is_SystemExit handler
      = Py.bind (Py.print (Diff2.not_implemented m o))
          (fun _ => handler Py.SystemExit))).
Proof.
  split; intros H.
  - rewrite (Diff_init_unsupported f h m o H).
    repeat split.
    + intros op. discriminate.
    + intros x [E|[]]. discriminate E.
  - rewrite (Diff2_init_unsupported f h m o H).
    repeat split.
    + intros op. discriminate.
    + intros x [E|[]]. discriminate E.
Qed.

(** C9: every row of both tables has a nonzero coefficient; hence the
    constructor's test [not weights.any()] holds exactly when the key is
    absent from the table, and a supported pair is never rejected. *)
Theorem C9_rejection_iff_key_absent :
  (forall m o ws,
     Diff.table !! (m, o) = Some ws -> Exists (fun w => ~ w == 0) ws) /\
  (forall m o ws,
     Diff2.table !! (m, o) = Some ws -> Exists (fun w => ~ w == 0) ws) /\
  (forall m o,
     negb (Np.any (Np.array (Diff.table !! (m, o)))) = true
     <-> Diff.table !! (m, o) = None) /\
  (forall m o,
     negb (Np.any (Np.array (Diff2.table !! (m, o)))) = true
     <-> Diff2.table !! (m, o) = None) /\
  (forall f h m o,
     Py.result (Diff.__init__ f h m o) = Py.Raise Py.SystemExit
     <-> Diff.table !! (m, o) = None) /\
  (forall f h m o,
     Py.result (Diff2.__init__ f h m o) = Py.Raise Py.SystemExit
     <-> Diff2.table !! (m, o) = None).
Proof.
  repeat apply conj.
  - intros m o ws H. apply any_Exists, row_ok_any, (Diff_row_ok _ _ _ H).
  - intros m o ws H. apply any_Exists, row_ok_any, (Diff2_row_ok _ _ _ H).
  - intros m o. destruct (Diff.table !! (m, o)) as [ws|] eqn:E.
    + cbn [Np.array]. rewrite (row_ok_any _ (Diff_row_ok _ _ _ E)).
      split; discriminate.
    + split; reflexivity.
  - intros m o. destruct (Diff2.table !! (m, o)) as [ws|] eqn:E.
    + cbn [Np.array]. rewrite (row_ok_any _ (Diff2_row_ok _ _ _ E)).
      split; discriminate.
    + split; reflexivity.
  - intros f h m o. destruct (Diff.table !! (m, o)) as [ws|] eqn:E.
    + rewrite (Diff_init_supported f h m o ws E). split; discriminate.
    + rewrite (Diff_init_unsupported f h m o E). split; reflexivity.
  - intros f h m o. destruct (Diff2.table !! (m, o)) as [ws|] eqn:E.
    + rewrite (Diff2_init_supported f h m o ws E). split; discriminate.
    + rewrite (Diff2_init_unsupported f h m o E). split; reflexivity.
Qed.


(** C10, as stated, fails on the program: in binary64 the value returned
    for the constant function 7 at x = 2 with h = 1e-5 is not 0 for the
    first-derivative central order 8 row, nor for the second-derivative
    central order 4 row. *)
#[local] Set Warnings "-inexact-float".


#[local] Set Warnings "inexact-float".

(** ** The rows as finite-difference stencils *)

Lemma eliminatesb_sound d p ws :
  eliminatesb d p ws = true -> eliminates d p ws.
Proof.
  unfold eliminatesb, eliminates. rewrite forallb_forall.
  intros H k Hk. apply Qeq_bool_iff, H, in_seq. lia.
Qed.

(** The weight at offset [i] is zero, when [i] lies outside the window. *)
Ltac outside C v i :=
  try (let H := fresh "Hz" in
       assert (H : weight_at v i == 0) by (apply C; [cbn; tauto | lia]);
       cbv - [Qeq] in H).

(** The [k]-th moment equation, when [k] is below the order bound. *)
Ltac moment_at E k :=
  try (let H := fresh "Hm" in
       pose proof (E k ltac:(cbn; lia)) as H;
       cbv - [Qplus Qmult Qeq] in H).

(** A concrete row is a stencil on a concrete window. *)
Ltac stencil_holds :=
  split; [reflexivity|split];
  [ intros i Hin Hout; cbn in Hin;
    repeat (destruct Hin as [<-|Hin]; [first [reflexivity | exfalso; lia]|]);
    destruct Hin
  | apply eliminatesb_sound; vm_compute; reflexivity ].

(** The moment equations on a concrete window have one solution. *)
Ltac stencil_unique :=
  let v := fresh "v" in
  let L := fresh "L" in
  let C := fresh "C" in
  let E := fresh "E" in
  intros v (L & C & E);
  destruct (nine_elements v L)
    as (v0 & v1 & v2 & v3 & v4 & v5 & v6 & v7 & v8 & ->);
  outside C [v0; v1; v2; v3; v4; v5; v6; v7; v8] (-4)%Z;
  outside C [v0; v1; v2; v3; v4; v5; v6; v7; v8] (-3)%Z;
  outside C [v0; v1; v2; v3; v4; v5; v6; v7; v8] (-2)%Z;
  outside C [v0; v1; v2; v3; v4; v5; v6; v7; v8] (-1)%Z;
  outside C [v0; v1; v2; v3; v4; v5; v6; v7; v8] 0%Z;
  outside C [v0; v1; v2; v3; v4; v5; v6; v7; v8] 1%Z;
  outside C [v0; v1; v2; v3; v4; v5; v6; v7; v8] 2%Z;
  outside C [v0; v1; v2; v3; v4; v5; v6; v7; v8] 3%Z;
  outside C [v0; v1; v2; v3; v4; v5; v6; v7; v8] 4%Z;
  moment_at E 0%nat; moment_at E 1%nat; moment_at E 2%nat;
  moment_at E 3%nat; moment_at E 4%nat; moment_at E 5%nat;
  moment_at E 6%nat; moment_at E 7%nat; moment_at E 8%nat;
  clear L C E;
  repeat constructor; cbv - [Qeq]; lra.

Ltac the_stencil_holds := split; [stencil_holds | stencil_unique].

Ltac standard_holds :=
  eexists; eexists; split; [vm_compute; reflexivity | the_stencil_holds].

Lemma Diff_row_stencil m o ws :
  Diff.table !! (m, o) = Some ws ->
  ((m, o) = ("forward", 3%Z) /\ the_stencil 1 3 (-1) 2 ws) \/
  ((m, o) <> ("forward", 3%Z) /\ standard m 1 o ws).
Proof.
  intros H. apply lookup_literal in H. cbn [In Diff.literal] in H.
  repeat (destruct H as [H|H]; [inversion H; subst; clear H|]);
    [right|right|right|right|left|right|right|right|right|destruct H];
    (split; [try reflexivity; try discriminate|]).
  - standard_holds.
  - standard_holds.
  - standard_holds.
  - standard_holds.
  - the_stencil_holds.
  - standard_holds.
  - standard_holds.
  - standard_holds.
  - standard_holds.
Qed.

Lemma Diff2_row_stencil m o ws :
  Diff2.table !! (m, o) = Some ws -> standard m 2 o ws.
Proof.
  intros H. apply lookup_literal in H. cbn [In Diff2.literal] in H.
  repeat (destruct H as [H|H]; [inversion H; subst; clear H|]);
    [| | | | | |destruct H]; standard_holds.
Qed.

Lemma standard_is_stencil m d o ws :
  standard m d o ws -> length ws = 9%nat /\ eliminates d (Z.to_nat o) ws.
Proof.
  intros (lo & hi & _ & (L & _ & E) & _). split; assumption.
Qed.

Lemma Diff_supported m o :
  is_Some (Diff.table !! (m, o)) <-> In (m, o) supported_first.
Proof.
  split.
  - intros [ws H]. apply lookup_literal in H. cbn [In Diff.literal] in H.
    repeat (destruct H as [H|H]; [inversion H; subst; cbn; tauto|]).
    destruct H.
  - intros H. cbn [In supported_first] in H.
    repeat (destruct H as [H|H];
            [inversion H; subst; eexists; vm_compute; reflexivity|]).
    destruct H.
Qed.

Lemma Diff2_supported m o :
  is_Some (Diff2.table !! (m, o)) <-> In (m, o) supported_second.
Proof.
  split.
  - intros [ws H]. apply lookup_literal in H. cbn [In Diff2.literal] in H.
    repeat (destruct H as [H|H]; [inversion H; subst; cbn; tauto|]).
    destruct H.
  - intros H. cbn [In supported_second] in H.
    repeat (destruct H as [H|H];
            [inversion H; subst; eexists; vm_compute; reflexivity|]).
    destruct H.
Qed.

(** C2, as the code has it: the pairs with an entry are the listed ones;
    every row has exactly 9 coefficients and cancels the Taylor terms of
    its order. Every second-derivative row, and every first-derivative row
    other than forward order 3, holds the standard coefficients: it is the
    one stencil of its order on the standard offsets of its method. The
    first-derivative forward order 3 row is the one third-order stencil on
    the offsets -1..2. The central order 2 first-derivative row is -1/2, 0,
    1/2 at the offsets -1, 0, 1 and zero elsewhere. *)
Theorem C2_rows_are_finite_difference_stencils
    (m : string) (o : Z) (ws : list Q) :
  (Diff.table !! (m, o) = Some ws ->
   length ws = 9%nat /\
   eliminates 1 (Z.to_nat o) ws /\
   ((m, o) <> ("forward", 3%Z) -> standard m 1 o ws) /\
   ((m, o) = ("forward", 3%Z) -> the_stencil 1 3 (-1) 2 ws)) /\
  (Diff2.table !! (m, o) = Some ws ->
   length ws = 9%nat /\
   eliminates 2 (Z.to_nat o) ws /\
   standard m 2 o ws) /\
  (is_Some (Diff.table !! (m, o)) <-> In (m, o) supported_first) /\
  (is_Some (Diff2.table !! (m, o)) <-> In (m, o) supported_second) /\
  Diff.table !! ("central", 2%Z) = Some [0; 0; 0; -1/2; 0; 1/2; 0; 0; 0] /\
  (forall i, In i offsets ->
     weight_at [0; 0; 0; -1/2; 0; 1/2; 0; 0; 0] i
     == (if (i =? -1)%Z then -1/2 else if (i =? 1)%Z then 1/2 else 0)).
Proof.
  split; [|split; [|split; [|split; [|split]]]].
  - intros H. destruct (Diff_row_stencil m o ws H) as [[K T]|[K T]].
    + inversion K; subst. pose proof T as [(L & C & E) U].
      split; [exact L|]. split; [exact E|]. split; [|intros _; exact T].
      intros NE. now elim NE.
    + destruct (standard_is_stencil _ _ _ _ T) as [L E].
      split; [exact L|]. split; [exact E|]. split; [intros _; exact T|].
      intros E'. now elim K.
  - intros H. pose proof (Diff2_row_stencil m o ws H) as T.
    destruct (standard_is_stencil _ _ _ _ T) as [L E].
    split; [exact L|]. split; [exact E|exact T].
  - apply Diff_supported.
  - apply Diff2_supported.
  - vm_compute. reflexivity.
  - intros i Hin. cbn in Hin.
    repeat (destruct Hin as [<-|Hin]; [vm_compute; reflexivity|]).
    destruct Hin.
Qed.

(** C2, as stated, fails on the first-derivative forward order 3 row: a
    forward difference samples only [x, x+h, ...], and this row has the
    weight -2/6 at the offset -1. *)
Lemma C2_forward_3_is_not_standard :
  exists ws,
    Diff.table !! ("forward", 3%Z) = Some ws /\
    ~ standard "forward" 1 3 ws /\
    standard "forward" 1 3 [0; 0; 0; 0; -11/6; 3; -3/2; 1/3; 0].
Proof.
  exists [0; 0; 0; -2/6; -1/2; 1; -1/6; 0; 0].
  split; [vm_compute; reflexivity|].
  split; [|standard_holds].
  intros (lo & hi & W & (_ & C & _) & _).
  vm_compute in W. inversion W; subst.
  assert (K : weight_at [0; 0; 0; -2/6; -1/2; 1; -1/6; 0; 0] (-1) == 0)
    by (apply C; [cbn; tauto | lia]).
  vm_compute in K. discriminate K.
Qed.

Lemma C2_witness :
  standard "central" 1 4 [0; 0; 1/12; -2/3; 0; 2/3; -1/12; 0; 0] /\
  the_stencil 1 3 (-1) 2 [0; 0; 0; -2/6; -1/2; 1; -1/6; 0; 0] /\
  standard "backward" 2 2 [0; -1; 4; -5; 2; 0; 0; 0; 0].
Proof.
  split; [|split].
  - apply (proj1 (C2_rows_are_finite_difference_stencils "central" 4
                    [0; 0; 1/12; -2/3; 0; 2/3; -1/12; 0; 0])).
    + vm_compute. reflexivity.
    + discriminate.
  - apply (proj1 (C2_rows_are_finite_difference_stencils "forward" 3
                    [0; 0; 0; -2/6; -1/2; 1; -1/6; 0; 0])).
    + vm_compute. reflexivity.
    + reflexivity.
  - apply (proj1 (proj2 (C2_rows_are_finite_difference_stencils "backward" 2
                           [0; -1; 4; -5; 2; 0; 0; 0; 0]))).
    vm_compute. reflexivity.
Defined.

(** ** Accuracy of the central differences on the cube *)

(** C7: with f(x) = x^3, x = 2 and h = 1e-5, every central
    first-derivative operator of order 2, 4, 6 or 8 returns a value within
    1e-3 of 12, and its error does not exceed the error of order 2. This
    holds over exact rationals with the literal table coefficients, and for
    the binary64 values the program computes, whether [x ** 3] rounds the
    cube once or multiplies twice. *)
Theorem C7_central_differences_of_the_cube (o : Z) :
  In o [2; 4; 6; 8]%Z ->
  (exists e e2,
     central_error o = Some e /\ central_error 2 = Some e2 /\
     e <= 1e-3 /\ e <= e2) /\
  (exists e e2,
     B64.central_error B64.pow3 o = Some e /\
     B64.central_error B64.pow3 2 = Some e2 /\
     (e <=? 1 / 1000)%float = true /\ (e <=? e2)%float = true) /\
  (exists e e2,
     B64.central_error B64.cube o = Some e /\
     B64.central_error B64.cube 2 = Some e2 /\
     (e <=? 1 / 1000)%float = true /\ (e <=? e2)%float = true).
Proof.
  intros Ho. cbn [In] in Ho.
  repeat (destruct Ho as [<-|Ho]); try destruct Ho.
  all: split; [|split].
  all: eexists; eexists;
    (split; [vm_compute; reflexivity|]);
    (split; [vm_compute; reflexivity|]).
  all: try (split; apply Qle_bool_iff; vm_compute; reflexivity).
  all: split; vm_compute; reflexivity.
Qed.

Lemma C7_witness :
  (exists e e2,
     central_error 8 = Some e /\ central_error 2 = Some e2 /\
     e <= 1e-3 /\ e <= e2) /\
  (exists e e2,
     B64.central_error B64.pow3 8 = Some e /\
     B64.central_error B64.pow3 2 = Some e2 /\
     (e <=? 1 / 1000)%float = true /\ (e <=? e2)%float = true) /\
  (exists e e2,
     B64.central_error B64.cube 8 = Some e /\
     B64.central_error B64.cube 2 = Some e2 /\
     (e <=? 1 / 1000)%float = true /\ (e <=? e2)%float = true).
Proof.
  apply (C7_central_differences_of_the_cube 8). cbn. tauto.
Defined.

(** ** The quadrature weights *)

Section Weights.

Lemma fold_append (g : Z -> Q) (l : list Z) (acc : list Q) :
  fold_left (fun ws i => ws ++ [g i]) l acc = acc ++ map g l.
Proof.
  revert acc. induction l as [|i l IH]; intros acc; cbn [fold_left map].
  - now rewrite app_nil_r.
  - rewrite IH, <- app_assoc. reflexivity.
Qed.

Lemma fold_append_if (c : Z -> bool) (x y : Q) (l : list Z)
    (acc : list Q) :
  fold_left (fun ws i => if c i then ws ++ [x] else ws ++ [y]) l acc
  = acc ++ map (fun i => if c i then x else y) l.
Proof.
  revert acc. induction l as [|i l IH]; intros acc; cbn [fold_left map].
  - now rewrite app_nil_r.
  - rewrite IH. destruct (c i); now rewrite <- app_assoc.
Qed.

Lemma trapezoidal_weights_eq h n :
  Integral.trapezoidal_weights h n
  = [h / 2] ++ map (fun _ => h) (Py.range 1 (n - 1)) ++ [h / 2].
Proof.
  unfold Integral.trapezoidal_weights.
  now rewrite (fold_append (fun _ => h)), <- app_assoc.
Qed.

Lemma midpoint_weights_eq h n :
  Integral.midpoint_weights h n = map (fun _ => h) (Py.range 0 n).
Proof.
  unfold Integral.midpoint_weights.
  now rewrite (fold_append (fun _ => h)).
Qed.

Lemma simpson_weights_eq h n :
  Integral.simpson_weights h n
  = [h / 3]
      ++ map (fun i => if (i mod 2 =? 1)%Z then 4 * h / 3 else 2 * h / 3)
           (Py.range 1 (n - 1))
      ++ [h / 3].
Proof.
  unfold Integral.simpson_weights.
  now rewrite (fold_append_if (fun i => (i mod 2 =? 1)%Z)), <- app_assoc.
Qed.

Lemma trapezoidal_length h n :
  length (Integral.trapezoidal_weights h n) = (2 + Z.to_nat (n - 2))%nat.
Proof.
  rewrite trapezoidal_weights_eq.
  rewrite !length_app, length_map, length_range. cbn [length].
  replace (n - 1 - 1)%Z with (n - 2)%Z by lia. lia.
Qed.

Lemma midpoint_length h n :
  length (Integral.midpoint_weights h n) = Z.to_nat n.
Proof.
  rewrite midpoint_weights_eq, length_map, length_range.
  now rewrite Z.sub_0_r.
Qed.

Lemma simpson_length h n :
  length (Integral.simpson_weights h n) = (2 + Z.to_nat (n - 2))%nat.
Proof.
  rewrite simpson_weights_eq.
  rewrite !length_app, length_map, length_range. cbn [length].
  replace (n - 1 - 1)%Z with (n - 2)%Z by lia. lia.
Qed.

Lemma nth_error_range lo hi k :
  (k < Z.to_nat (hi - lo))%nat ->
  nth_error (Py.range lo hi) k = Some (lo + Z.of_nat k)%Z.
Proof.
  intros Hk. unfold Py.range. rewrite nth_error_map.
  rewrite (nth_error_nth' _ 0%nat) by (rewrite length_seq; exact Hk).
  rewrite seq_nth by exact Hk. reflexivity.
Qed.

End Weights.

(** ** Construction of the quadrature operator *)

Lemma Qeq_bool_inject_Z (n : Z) : Qeq_bool (inject_Z n) 0 = (n =? 0)%Z.
Proof.
  destruct (n =? 0)%Z eqn:E.
  - apply Z.eqb_eq in E. subst. reflexivity.
  - apply Z.eqb_neq in E. destruct (Qeq_bool (inject_Z n) 0) eqn:B;
      [|reflexivity].
    apply Qeq_bool_iff in B. unfold Qeq, inject_Z in B. cbn in B. lia.
Qed.

Lemma py_truediv_nonzero (x : Q) (n : Z) :
  n <> 0%Z -> Py.truediv x (inject_Z n) = Py.ret (x / inject_Z n).
Proof.
  intros H. unfold Py.truediv. rewrite Qeq_bool_inject_Z.
  apply Z.eqb_neq in H. now rewrite H.
Qed.

Lemma py_truediv_zero (x : Q) :
  Py.truediv x (inject_Z 0) = Py.raise Py.ZeroDivisionError.
Proof. reflexivity. Qed.

Lemma init_trapezoidal f a b n :
  n <> 1%Z ->
  Integral.__init__ f a b n "trapezoidal"
  = Py.ret (Integral.Build f a b n "trapezoidal" ((b - a) / inject_Z (n - 1))
              (Np.Vec (Integral.trapezoidal_weights
                         ((b - a) / inject_Z (n - 1)) n))).
Proof.
  intros H. unfold Integral.__init__. cbn [String.eqb Ascii.eqb Bool.eqb].
  rewrite py_truediv_nonzero by lia. reflexivity.
Qed.

Lemma init_midpoint f a b n :
  n <> 0%Z ->
  Integral.__init__ f a b n "midpoint"
  = Py.ret (Integral.Build f a b n "midpoint" ((b - a) / inject_Z n)
              (Np.Vec (Integral.midpoint_weights ((b - a) / inject_Z n) n))).
Proof.
  intros H. unfold Integral.__init__. cbn [String.eqb Ascii.eqb Bool.eqb].
  rewrite py_truediv_nonzero by lia. reflexivity.
Qed.

Lemma init_simpson f a b n :
  n <> 1%Z ->
  Integral.__init__ f a b n "simpson"
  = Py.ret (Integral.Build f a b n "simpson" ((b - a) / inject_Z (n - 1))
              (Np.Vec (Integral.simpson_weights
                         ((b - a) / inject_Z (n - 1)) n))).
Proof.
  intros H. unfold Integral.__init__. cbn [String.eqb Ascii.eqb Bool.eqb].
  rewrite py_truediv_nonzero by lia. reflexivity.
Qed.

Lemma init_zero_division f a b n method :
  (if (method =? "midpoint")%string then n else n - 1)%Z = 0%Z ->
  Integral.__init__ f a b n method = Py.raise Py.ZeroDivisionError.
Proof.
  intros H. unfold Integral.__init__.
  destruct (method =? "midpoint")%string; rewrite H; reflexivity.
Qed.

Lemma unrecognized_eqb method :
  ~ recognized method ->
  (method =? "trapezoidal")%string = false /\
  (method =? "midpoint")%string = false /\
  (method =? "simpson")%string = false.
Proof.
  unfold recognized. intros H.
  repeat split; apply String.eqb_neq; intros E; apply H; tauto.
Qed.

Lemma init_unrecognized f a b n method :
  ~ recognized method -> n <> 1%Z ->
  Integral.__init__ f a b n method
  = Py.raise (Py.NotImplementedError (Integral.not_implemented method)).
Proof.
  intros H Hn. destruct (unrecognized_eqb method H) as (T & M & S).
  unfold Integral.__init__. rewrite T, M, S.
  rewrite py_truediv_nonzero by lia. reflexivity.
Qed.

(** ** Theorems about the quadrature operator *)

(** C6, as the code has it: for a rule name other than "trapezoidal",
    "midpoint" and "simpson", construction never returns an operator, so
    no weight sequence is produced; it raises [NotImplementedError] when
    [n] is not 1, and for [n = 1] the step [(b - a) / (n - 1)] is computed
    first and raises [ZeroDivisionError]. *)
Theorem C6_unrecognized_rule_fails
    (f : Q -> Q) (a b : Q) (n : Z) (method : string) :
  ~ recognized method ->
  (forall op, Py.result (Integral.__init__ f a b n method) <> Py.Ok op) /\
  (n <> 1%Z ->
   Integral.__init__ f a b n method
   = Py.raise (Py.NotImplementedError (Integral.not_implemented method))) /\
  (n = 1%Z ->
   Integral.__init__ f a b n method = Py.raise Py.ZeroDivisionError).
Proof.
  intros H.
  assert (Z1 : n = 1%Z ->
               Integral.__init__ f a b n method
               = Py.raise Py.ZeroDivisionError).
  { intros ->. apply init_zero_division.
    destruct (unrecognized_eqb method H) as (_ & -> & _). reflexivity. }
  split; [|split].
  - intros op. destruct (Z.eq_dec n 1%Z) as [E|E].
    + rewrite (Z1 E). discriminate.
    + rewrite (init_unrecognized f a b n method H E). discriminate.
  - apply init_unrecognized, H.
  - exact Z1.
Qed.

(** C6, as stated, fails for [n = 1]: the unknown rule "trapz", the default
    of the constructor, then ends in [ZeroDivisionError]. *)
Lemma C6_unrecognized_rule_with_one_sample :
  ~ recognized "trapz" /\
  Integral.__init__ (fun x => x) 0 1 1 "trapz"
  = Py.raise Py.ZeroDivisionError /\
  Py.result (Integral.__init__ (fun x => x) 0 1 1 "trapz")
  <> Py.Raise (Py.NotImplementedError (Integral.not_implemented "trapz")).
Proof.
  split; [|split].
  - intros [E|[E|E]]; discriminate E.
  - reflexivity.
  - discriminate.
Qed.

Lemma C6_witness :
  Integral.__init__ (fun x => x) 0 1 100 "gauss"
  = Py.raise (Py.NotImplementedError "Gauss method is not implemented yet!").
Proof.
  apply (C6_unrecognized_rule_fails (fun x => x) 0 1 100 "gauss").
  - intros [E|[E|E]]; discriminate E.
  - discriminate.
Defined.




Lemma mod2_odd (i : Z) : (i mod 2 =? 1)%Z = Z.odd i.
Proof. symmetry. apply Zodd_mod. Qed.

(** C5: for n >= 2, constructing with the rule "simpson" gives the step
    h = (b - a) / (n - 1) and n weights: h/3 at the indices 0 and n-1, and
    at an interior index i the weight 4h/3 when i is odd, 2h/3 when i is
    even. *)
Theorem C5_simpson_weights (f : Q -> Q) (a b : Q) (n : Z) :
  (2 <= n)%Z ->
  exists op ws,
    Integral.__init__ f a b n "simpson" = Py.ret op /\
    Integral.h op = (b - a) / inject_Z (n - 1) /\
    Integral.weights op = Np.Vec ws /\
    Z.of_nat (length ws) = n /\
    nth_error ws 0 = Some (Integral.h op / 3) /\
    nth_error ws (Z.to_nat (n - 1)) = Some (Integral.h op / 3) /\
    forall i, (1 <= i <= n - 2)%Z ->
      nth_error ws (Z.to_nat i)
      = Some (if Z.odd i then 4 * Integral.h op / 3
              else 2 * Integral.h op / 3).
Proof.
  intros Hn. eexists. eexists.
  split; [apply init_simpson; lia|]. cbn [Integral.h Integral.weights].
  split; [reflexivity|]. split; [reflexivity|].
  set (h := (b - a) / inject_Z (n - 1)).
  split; [rewrite simpson_length; lia|].
  rewrite simpson_weights_eq.
  set (g := fun i : Z => if (i mod 2 =? 1)%Z then 4 * h / 3 else 2 * h / 3).
  assert (Lr : length (map g (Py.range 1 (n - 1))) = Z.to_nat (n - 2)).
  { rewrite length_map, length_range. f_equal. lia. }
  split; [reflexivity|]. split.
  - replace (Z.to_nat (n - 1)) with (S (Z.to_nat (n - 2))) by lia.
    cbn [app nth_error].
    rewrite nth_error_app2 by (rewrite Lr; lia).
    rewrite Lr, Nat.sub_diag. reflexivity.
  - intros i Hi.
    replace (Z.to_nat i) with (S (Z.to_nat (i - 1))) by lia.
    cbn [app nth_error].
    rewrite nth_error_app1 by (rewrite Lr; lia).
    rewrite nth_error_map, nth_error_range by lia.
    cbn [option_map]. unfold g. rewrite mod2_odd.
    replace (1 + Z.of_nat (Z.to_nat (i - 1)))%Z with i by lia.
    reflexivity.
Qed.

Lemma C5_witness :
  exists op ws,
    Integral.__init__ (fun x => x) 0 1 5 "simpson" = Py.ret op /\
    Integral.h op = (1 - 0) / inject_Z (5 - 1) /\
    Integral.weights op = Np.Vec ws /\
    Z.of_nat (length ws) = 5%Z /\
    nth_error ws 0 = Some (Integral.h op / 3) /\
    nth_error ws (Z.to_nat (5 - 1)) = Some (Integral.h op / 3) /\
    forall i, (1 <= i <= 5 - 2)%Z ->
      nth_error ws (Z.to_nat i)
      = Some (if Z.odd i then 4 * Integral.h op / 3
              else 2 * Integral.h op / 3).
Proof.
  apply (C5_simpson_weights (fun x => x) 0 1 5). lia.
Defined.

(** ** Sums of the quadrature weights *)

Section WeightSums.

Lemma sum_list_app (l1 l2 : list Q) :
  sum_list (l1 ++ l2) == sum_list l1 + sum_list l2.
Proof.
  unfold sum_list. induction l1 as [|x l1 IH]; cbn [app fold_right].
  - ring.
  - rewrite IH. ring.
Qed.




Variables (a b : Q) (n : Z).
Hypothesis n_ge_2 : (2 <= n)%Z.


Lemma interior_count : inject_Z (n - 2) == inject_Z (n - 1) - 1.
Proof.
  replace (n - 2)%Z with ((n - 1) + - (1))%Z by lia.
  rewrite inject_Z_plus, inject_Z_opp. change (inject_Z 1) with 1. ring.
Qed.




End WeightSums.

Lemma Integral_call_eq f a b n method h ws :
  length ws = Z.to_nat n ->
  Integral.__call__ (Integral.Build f a b n method h (Np.Vec ws))
  = (map (fun i => Py.CallF (a + inject_Z i * h)) (Py.range 0 n),
     Py.Ok (Np.dot ws (map (fun i => f (a + inject_Z i * h))
                         (Py.range 0 n)))).
Proof.
  intros L. unfold Integral.__call__.
  cbn [Integral.f Integral.a Integral.h Integral.n Integral.weights].
  rewrite comprehension_call. cbn [Py.bind].
  rewrite matmul_same_length
    by (now rewrite length_map, length_range, Z.sub_0_r).
  cbn. now rewrite ?app_nil_r.
Qed.





(** ** Instances *)


Lemma C4_witness :
  Diff.__init__ cube 1 "forward" 4
  = ([Py.Print "Forward method with order of 4 is not implemented!"],
     Py.Raise Py.SystemExit).
Proof.
  apply (proj1 (C4_unsupported_pair_raises cube 1 "forward" 4)).
  vm_compute. reflexivity.
Defined.

Lemma C9_witness :
  Exists (fun w => ~ w == 0) [0; 0; -1/12; 4/3; -5/2; 4/3; -1/12; 0; 0].
Proof.
  apply (proj1 (proj2 C9_rejection_iff_key_absent) "central" 4%Z).
  vm_compute. reflexivity.
Defined.


(** ** Further properties of the differentiation operators *)



(** A polynomial identity between a concrete stencil sum and a derivative. *)
Ltac poly_exact :=
  cbv [offsets map Np.dot poly poly_deriv deriv_from inject_Z Z.of_nat
       Pos.of_succ_nat Pos.succ];
  field.

Lemma Diff_dot_exact cs h x m o ws :
  Diff.table !! (m, o) = Some ws ->
  (length cs <= Z.to_nat o + 1)%nat ->
  Np.dot ws (map (fun i => poly cs (x + inject_Z i * h)) offsets)
  == h * poly (poly_deriv cs) x.
Proof.
  intros H L. apply lookup_literal in H. cbn [In Diff.literal] in H.
  repeat (destruct H as [H|H]; [inversion H; subst; clear H|]);
    [..|destruct H].
  all: do 10 (destruct cs as [|? cs];
        [first [exfalso; cbn in L; lia | poly_exact]|]).
  all: exfalso; cbn in L; lia.
Qed.

Lemma Diff2_dot_exact cs h x m o ws :
  Diff2.table !! (m, o) = Some ws ->
  (length cs <= Z.to_nat o + 2)%nat ->
  Np.dot ws (map (fun i => poly cs (x + inject_Z i * h)) offsets)
  == h ^ 2 * poly (poly_deriv (poly_deriv cs)) x.
Proof.
  intros H L. apply lookup_literal in H. cbn [In Diff2.literal] in H.
  repeat (destruct H as [H|H]; [inversion H; subst; clear H|]);
    [..|destruct H].
  all: do 8 (destruct cs as [|? cs];
        [first [exfalso; cbn in L; lia | poly_exact]|]).
  all: exfalso; cbn in L; lia.
Qed.

(** X1: the coefficients of every row of [Diff.table], as the exact
    rationals written there, reproduce the derivative of polynomials up to
    the degree [order]: for such a polynomial p the exact stencil sum
    (sum over i of w_i * p (x + i*h)) is h * p'(x), for every step and
    point. This is a property of the table; the binary64 value the program
    returns differs from p'(x) by the rounding of the sum. *)
Theorem Diff_rows_exact_on_polynomials
    (cs : list Q) (h x : Q) (m : string) (o : Z) (ws : list Q) :
  Diff.table !! (m, o) = Some ws ->
  (length cs <= Z.to_nat o + 1)%nat ->
  stencil_sum ws (poly cs) h x == h * poly (poly_deriv cs) x.
Proof.
  intros H L.
  rewrite <- (dot_stencil_sum ws (poly cs) h x
                (row_ok_length _ (Diff_row_ok _ _ _ H))).
  exact (Diff_dot_exact cs h x m o ws H L).
Qed.

Lemma Diff_rows_exact_on_polynomials_witness :
  stencil_sum [0; 0; 0; -2/6; -1/2; 1; -1/6; 0; 0] (poly [5; 0; -1; 2]) 1e-5 2
  == 1e-5 * poly (poly_deriv [5; 0; -1; 2]) 2.
Proof.
  apply (Diff_rows_exact_on_polynomials [5; 0; -1; 2] 1e-5 2 "forward" 3
           [0; 0; 0; -2/6; -1/2; 1; -1/6; 0; 0]).
  - vm_compute. reflexivity.
  - cbn. lia.
Defined.

(** X2: the coefficients of every row of [Diff2.table], as the exact
    rationals written there, reproduce the second derivative of polynomials
    up to the degree [order + 1]: for such a polynomial p the exact stencil
    sum is h^2 * p''(x), for every step and point. This is a property of
    the table; the binary64 value the program returns differs from p''(x)
    by the rounding of the sum. *)
Theorem Diff2_rows_exact_on_polynomials
    (cs : list Q) (h x : Q) (m : string) (o : Z) (ws : list Q) :
  Diff2.table !! (m, o) = Some ws ->
  (length cs <= Z.to_nat o + 2)%nat ->
  stencil_sum ws (poly cs) h x
  == h ^ 2 * poly (poly_deriv (poly_deriv cs)) x.
Proof.
  intros H L.
  rewrite <- (dot_stencil_sum ws (poly cs) h x
                (row_ok_length _ (Diff2_row_ok _ _ _ H))).
  exact (Diff2_dot_exact cs h x m o ws H L).
Qed.

Lemma Diff2_rows_exact_on_polynomials_witness :
  stencil_sum [0; 0; 0; 1; -2; 1; 0; 0; 0] (poly [1; 1; 1; 1]) 1e-5 2
  == 1e-5 ^ 2 * poly (poly_deriv (poly_deriv [1; 1; 1; 1])) 2.
Proof.
  apply (Diff2_rows_exact_on_polynomials [1; 1; 1; 1] 1e-5 2 "central" 2
           [0; 0; 0; 1; -2; 1; 0; 0; 0]).
  - vm_compute. reflexivity.
  - cbn. lia.
Defined.






(** *** Reversing the step *)










(** *** A zero step, and the default configuration *)

Lemma truediv_zero (s y : Q) : y == 0 -> Np.truediv s y = Np.NonFinite.
Proof.
  intros Hy. unfold Np.truediv.
  apply Qeq_bool_iff in Hy. now rewrite Hy.
Qed.

(** X7: a step equal to zero is not rejected: for a supported pair,
    construction succeeds, evaluation calls [f] nine times and returns a
    non-finite NumPy value instead of raising, for both operators. *)
Theorem Diff_zero_step_is_not_finite (f : Q -> Q) (h x : Q)
    (m : string) (o : Z) :
  h == 0 ->
  (is_Some (Diff.table !! (m, o)) ->
   Py.result (derivative f h m o x) = Py.Ok Np.NonFinite /\
   Py.trace (derivative f h m o x)
   = map (fun i => Py.CallF (x + inject_Z i * h)) offsets) /\
  (is_Some (Diff2.table !! (m, o)) ->
   Py.result (derivative2 f h m o x) = Py.Ok Np.NonFinite /\
   Py.trace (derivative2 f h m o x)
   = map (fun i => Py.CallF (x + inject_Z i * h)) offsets).
Proof.
  intros Hh. split; intros [ws H].
  - unfold derivative. rewrite (Diff_init_supported f h m o ws H).
    cbn [Py.bind Py.ret].
    rewrite (Diff_call_eq _ _ _ _ _ _
               (row_ok_length _ (Diff_row_ok _ _ _ H))).
    rewrite (truediv_zero _ _ Hh). split; reflexivity.
  - unfold derivative2. rewrite (Diff2_init_supported f h m o ws H).
    cbn [Py.bind Py.ret].
    rewrite (Diff2_call_eq _ _ _ _ _ _
               (row_ok_length _ (Diff2_row_ok _ _ _ H))).
    assert (Hh2 : h ^ 2 == 0) by (rewrite Hh; reflexivity).
    rewrite (truediv_zero _ _ Hh2). split; reflexivity.
Qed.

Lemma Diff_zero_step_is_not_finite_witness :
  Py.result (derivative cube 0 "central" 2 2) = Py.Ok Np.NonFinite /\
  Py.trace (derivative cube 0 "central" 2 2)
  = map (fun i => Py.CallF (2 + inject_Z i * 0)) offsets.
Proof.
  apply (proj1 (Diff_zero_step_is_not_finite cube 0 2 "central" 2
                  ltac:(reflexivity))).
  eexists. vm_compute. reflexivity.
Defined.



(** *** The first polynomial that a row does not reproduce *)

Ltac next_monomial :=
  match goal with
  | |- context [moment ?ws ?k] =>
      let c := eval vm_compute in (moment ws k) in
      change (moment ws k) with c
  end;
  cbv [offsets map Np.dot poly poly_deriv deriv_from monomial inject_Z
       Z.of_nat Pos.of_succ_nat Pos.succ Z.to_nat Pos.to_nat Pos.iter_op
       Init.Nat.add Z.add Pos.add Pos.add_carry];
  field.

Lemma Diff_dot_next_monomial h x m o ws :
  Diff.table !! (m, o) = Some ws ->
  Np.dot ws
    (map (fun i => poly (monomial (Z.to_nat o + 1)) (x + inject_Z i * h))
       offsets)
  - h * poly (poly_deriv (monomial (Z.to_nat o + 1))) x
  == moment ws (Z.to_nat o + 1) * h ^ (o + 1) /\
  ~ moment ws (Z.to_nat o + 1) == 0.
Proof.
  intros H. apply lookup_literal in H. cbn [In Diff.literal] in H.
  repeat (destruct H as [H|H]; [inversion H; subst; clear H|]);
    [..|destruct H].
  all: split; [next_monomial | intros E; vm_compute in E; discriminate E].
Qed.

Lemma Diff2_dot_next_monomial h x m o ws :
  Diff2.table !! (m, o) = Some ws ->
  Np.dot ws
    (map (fun i => poly (monomial (Z.to_nat o + 2)) (x + inject_Z i * h))
       offsets)
  - h ^ 2 * poly (poly_deriv (poly_deriv (monomial (Z.to_nat o + 2)))) x
  == moment ws (Z.to_nat o + 2) * h ^ (o + 2) /\
  ~ moment ws (Z.to_nat o + 2) == 0.
Proof.
  intros H. apply lookup_literal in H. cbn [In Diff2.literal] in H.
  repeat (destruct H as [H|H]; [inversion H; subst; clear H|]);
    [..|destruct H].
  all: split; [next_monomial | intros E; vm_compute in E; discriminate E].
Qed.

(** X9: the order of a row of [Diff.table] is sharp: for the monomial
    p = x^(order+1) the exact stencil sum of the row's rational
    coefficients is h * p'(x) + M * h^(order+1) at every point and step,
    where M, the moment of degree order+1 of the row, is not zero. This is
    a property of the table, not of the rounded value the program
    returns. *)
Theorem Diff_rows_order_is_sharp (h x : Q) (m : string) (o : Z)
    (ws : list Q) :
  Diff.table !! (m, o) = Some ws ->
  stencil_sum ws (poly (monomial (Z.to_nat o + 1))) h x
  - h * poly (poly_deriv (monomial (Z.to_nat o + 1))) x
  == moment ws (Z.to_nat o + 1) * h ^ (o + 1) /\
  ~ moment ws (Z.to_nat o + 1) == 0.
Proof.
  intros H.
  rewrite <- (dot_stencil_sum ws _ h x
                (row_ok_length _ (Diff_row_ok _ _ _ H))).
  exact (Diff_dot_next_monomial h x m o ws H).
Qed.

Lemma Diff_rows_order_is_sharp_witness :
  stencil_sum [0; 0; 0; -1/2; 0; 1/2; 0; 0; 0]
    (poly (monomial (Z.to_nat 2 + 1))) 1e-5 2
  - 1e-5 * poly (poly_deriv (monomial (Z.to_nat 2 + 1))) 2
  == moment [0; 0; 0; -1/2; 0; 1/2; 0; 0; 0] (Z.to_nat 2 + 1)
     * 1e-5 ^ (2 + 1) /\
  ~ moment [0; 0; 0; -1/2; 0; 1/2; 0; 0; 0] (Z.to_nat 2 + 1) == 0.
Proof.
  apply (Diff_rows_order_is_sharp 1e-5 2 "central" 2
           [0; 0; 0; -1/2; 0; 1/2; 0; 0; 0]).
  vm_compute. reflexivity.
Defined.

(** X10: the order of a row of [Diff2.table] is sharp: for the monomial
    p = x^(order+2) the exact stencil sum of the row's rational
    coefficients is h^2 * p''(x) + M * h^(order+2) at every point and step,
    where M, the moment of degree order+2 of the row, is not zero. This is
    a property of the table, not of the rounded value the program
    returns. *)
Theorem Diff2_rows_order_is_sharp (h x : Q) (m : string) (o : Z)
    (ws : list Q) :
  Diff2.table !! (m, o) = Some ws ->
  stencil_sum ws (poly (monomial (Z.to_nat o + 2))) h x
  - h ^ 2 * poly (poly_deriv (poly_deriv (monomial (Z.to_nat o + 2)))) x
  == moment ws (Z.to_nat o + 2) * h ^ (o + 2) /\
  ~ moment ws (Z.to_nat o + 2) == 0.
Proof.
  intros H.
  rewrite <- (dot_stencil_sum ws _ h x
                (row_ok_length _ (Diff2_row_ok _ _ _ H))).
  exact (Diff2_dot_next_monomial h x m o ws H).
Qed.

Lemma Diff2_rows_order_is_sharp_witness :
  stencil_sum [0; 0; 0; 1; -2; 1; 0; 0; 0]
    (poly (monomial (Z.to_nat 2 + 2))) 1e-5 2
  - 1e-5 ^ 2 * poly (poly_deriv (poly_deriv (monomial (Z.to_nat 2 + 2)))) 2
  == moment [0; 0; 0; 1; -2; 1; 0; 0; 0] (Z.to_nat 2 + 2) * 1e-5 ^ (2 + 2) /\
  ~ moment [0; 0; 0; 1; -2; 1; 0; 0; 0] (Z.to_nat 2 + 2) == 0.
Proof.
  apply (Diff2_rows_order_is_sharp 1e-5 2 "central" 2
           [0; 0; 0; 1; -2; 1; 0; 0; 0]).
  vm_compute. reflexivity.
Defined.

(** ** Further properties of the quadrature operator *)

Section Ranges.

Lemma range_cons (lo hi : Z) :
  (lo < hi)%Z -> Py.range lo hi = lo :: Py.range (lo + 1) hi.
Proof.
  intros H. unfold Py.range.
  replace (Z.to_nat (hi - lo)) with (S (Z.to_nat (hi - (lo + 1)))) by lia.
  cbn [seq map]. f_equal; [lia|].
  rewrite <- seq_shift, map_map. apply map_ext. intros k. lia.
Qed.

Lemma range_snoc (lo hi : Z) :
  (lo < hi)%Z -> Py.range lo hi = Py.range lo (hi - 1) ++ [(hi - 1)%Z].
Proof.
  intros H. unfold Py.range.
  replace (Z.to_nat (hi - lo)) with (S (Z.to_nat (hi - 1 - lo))) by lia.
  rewrite seq_S, map_app. cbn [map Nat.add]. do 2 f_equal. lia.
Qed.


(** The samples of the quadrature: the two ends and what lies between. *)
Lemma range_ends (n : Z) :
  (2 <= n)%Z ->
  Py.range 0 n = 0%Z :: Py.range 1 (n - 1) ++ [(n - 1)%Z].
Proof.
  intros H. rewrite (range_cons 0 n) by lia.
  change (0 + 1)%Z with 1%Z. now rewrite (range_snoc 1 n) by lia.
Qed.

End Ranges.

Section Dots.

Lemma dot_app (u1 u2 v1 v2 : list Q) :
  length u1 = length v1 ->
  Np.dot (u1 ++ u2) (v1 ++ v2) == Np.dot u1 v1 + Np.dot u2 v2.
Proof.
  revert v1. induction u1 as [|a u1 IH]; intros [|b v1] L;
    try discriminate L; cbn [app Np.dot].
  - ring.
  - injection L as L. rewrite (IH v1 L). ring.
Qed.

Lemma dot_maps (g phi : Z -> Q) (l : list Z) :
  Np.dot (map g l) (map phi l) == sum_list (map (fun i => g i * phi i) l).
Proof.
  unfold sum_list. induction l as [|i l IH]; cbn [map Np.dot fold_right].
  - reflexivity.
  - now rewrite IH.
Qed.

Lemma sum_list_ext (phi psi : Z -> Q) (l : list Z) :
  (forall i, In i l -> phi i == psi i) ->
  sum_list (map phi l) == sum_list (map psi l).
Proof.
  unfold sum_list. induction l as [|i l IH]; intros H; cbn [map fold_right].
  - reflexivity.
  - rewrite (H i) by (now left). rewrite IH; [reflexivity|].
    intros j Hj. apply H. now right.
Qed.

Lemma sum_list_scale (c : Q) (phi : Z -> Q) (l : list Z) :
  sum_list (map (fun i => c * phi i) l) == c * sum_list (map phi l).
Proof.
  unfold sum_list. induction l as [|i l IH]; cbn [map fold_right].
  - ring.
  - rewrite IH. ring.
Qed.


(** The value of a rule with end weights [wf], [wl] and the weight [g i]
    at the interior index [i]. *)
Lemma dot_ends (wf wl : Q) (g phi : Z -> Q) (n : Z) :
  (2 <= n)%Z ->
  Np.dot ([wf] ++ map g (Py.range 1 (n - 1)) ++ [wl])
    (map phi (Py.range 0 n))
  == wf * phi 0%Z
     + sum_list (map (fun i => g i * phi i) (Py.range 1 (n - 1)))
     + wl * phi (n - 1)%Z.
Proof.
  intros H. rewrite (range_ends n H). cbn [map app Np.dot].
  rewrite map_app. rewrite dot_app by (now rewrite !length_map).
  rewrite dot_maps. cbn [map Np.dot]. ring.
Qed.

End Dots.

(** What construction and evaluation give for each rule, for [n >= 2]. *)
Lemma integrate_trapezoidal f a b n :
  (2 <= n)%Z ->
  integrate f a b n "trapezoidal"
  = (map (fun i => Py.CallF (a + inject_Z i * ((b - a) / inject_Z (n - 1))))
       (Py.range 0 n),
     Py.Ok (Np.dot
              (Integral.trapezoidal_weights ((b - a) / inject_Z (n - 1)) n)
              (map (fun i => f (a + inject_Z i * ((b - a) / inject_Z (n - 1))))
                 (Py.range 0 n)))).
Proof.
  intros H. unfold integrate. rewrite init_trapezoidal by lia.
  cbn [Py.bind Py.ret].
  rewrite Integral_call_eq by (rewrite trapezoidal_length; lia).
  reflexivity.
Qed.


Lemma integrate_simpson f a b n :
  (2 <= n)%Z ->
  integrate f a b n "simpson"
  = (map (fun i => Py.CallF (a + inject_Z i * ((b - a) / inject_Z (n - 1))))
       (Py.range 0 n),
     Py.Ok (Np.dot
              (Integral.simpson_weights ((b - a) / inject_Z (n - 1)) n)
              (map (fun i => f (a + inject_Z i * ((b - a) / inject_Z (n - 1))))
                 (Py.range 0 n)))).
Proof.
  intros H. unfold integrate. rewrite init_simpson by lia.
  cbn [Py.bind Py.ret].
  rewrite Integral_call_eq by (rewrite simpson_length; lia).
  reflexivity.
Qed.

Lemma sum_from_ext (lo : Z) (k : nat) (g g' : Z -> Q) :
  (forall i, (lo <= i < lo + Z.of_nat k)%Z -> g i == g' i) ->
  sum_from lo k g == sum_from lo k g'.
Proof.
  revert lo. induction k as [|k IH]; intros lo H; cbn [sum_from].
  - reflexivity.
  - rewrite (H lo) by lia. rewrite (IH (lo + 1)%Z); [reflexivity|].
    intros i Hi. apply H. lia.
Qed.

Lemma dot_sum_from (ws : list Q) (phi : Z -> Q) (lo : Z) :
  Np.dot ws
    (map phi (map (fun k => (lo + Z.of_nat k)%Z) (seq 0 (length ws))))
  == sum_from lo (length ws)
       (fun i => nth (Z.to_nat (i - lo)) ws 0 * phi i).
Proof.
  revert lo. induction ws as [|w ws IH]; intros lo.
  - reflexivity.
  - cbn [length seq map Np.dot sum_from].
    rewrite <- seq_shift.
    rewrite (map_map S (fun k => (lo + Z.of_nat k)%Z)).
    rewrite (map_ext _ (fun k => (lo + 1 + Z.of_nat k)%Z))
      by (intros k; lia).
    rewrite IH. replace (lo + Z.of_nat 0)%Z with lo by lia.
    replace (Z.to_nat (lo - lo)) with 0%nat by lia. cbn [nth].
    apply Qplus_comp; [reflexivity|].
    apply sum_from_ext. intros i Hi.
    replace (Z.to_nat (i - lo)) with (S (Z.to_nat (i - (lo + 1)))) by lia.
    reflexivity.
Qed.

Lemma dot_range_sigma (ws : list Q) (phi : Z -> Q) (n : Z) :
  length ws = Z.to_nat n ->
  Np.dot ws (map phi (Py.range 0 n))
  == sigma 0 (n - 1) (fun i => nth (Z.to_nat i) ws 0 * phi i).
Proof.
  intros L. unfold Py.range, sigma.
  replace (Z.to_nat (n - 0)) with (length ws) by lia.
  replace (Z.to_nat (n - 1 - 0 + 1)) with (length ws) by lia.
  rewrite dot_sum_from. apply sum_from_ext. intros i _.
  now rewrite Z.sub_0_r.
Qed.

(** X11: for a recognised rule and n >= 2, evaluation calls [f] exactly at
    the n points a, a+h, ..., a+(n-1)h, in this order, and returns the sum
    over i from 0 to n-1 of w_i * f (a + i*h), where w is the stored weight
    sequence and h the stored step. *)
Theorem Integral_call_is_weighted_sum
    (f : Q -> Q) (a b : Q) (n : Z) (method : string) :
  (2 <= n)%Z -> recognized method ->
  exists op ws v,
    Integral.__init__ f a b n method = Py.ret op /\
    Integral.weights op = Np.Vec ws /\
    Integral.__call__ op
    = (map (fun i => Py.CallF (a + inject_Z i * Integral.h op)) (Py.range 0 n),
       Py.Ok v) /\
    length (Py.range 0 n) = Z.to_nat n /\
    v == sigma 0 (n - 1)
           (fun i => nth (Z.to_nat i) ws 0
                     * f (a + inject_Z i * Integral.h op)).
Proof.
  intros Hn [ -> | [ -> | -> ] ].
  - eexists. eexists. eexists.
    split; [apply init_trapezoidal; lia|].
    split; [reflexivity|].
    split; [apply Integral_call_eq; rewrite trapezoidal_length; lia|].
    split; [rewrite length_range; f_equal; lia|].
    apply dot_range_sigma. rewrite trapezoidal_length. lia.
  - eexists. eexists. eexists.
    split; [apply init_midpoint; lia|].
    split; [reflexivity|].
    split; [apply Integral_call_eq; rewrite midpoint_length; lia|].
    split; [rewrite length_range; f_equal; lia|].
    apply dot_range_sigma. rewrite midpoint_length. lia.
  - eexists. eexists. eexists.
    split; [apply init_simpson; lia|].
    split; [reflexivity|].
    split; [apply Integral_call_eq; rewrite simpson_length; lia|].
    split; [rewrite length_range; f_equal; lia|].
    apply dot_range_sigma. rewrite simpson_length. lia.
Qed.

Lemma Integral_call_is_weighted_sum_witness :
  exists op ws v,
    Integral.__init__ cube 0 1 4 "trapezoidal" = Py.ret op /\
    Integral.weights op = Np.Vec ws /\
    Integral.__call__ op
    = (map (fun i => Py.CallF (0 + inject_Z i * Integral.h op)) (Py.range 0 4),
       Py.Ok v) /\
    length (Py.range 0 4) = Z.to_nat 4 /\
    v == sigma 0 (4 - 1)
           (fun i => nth (Z.to_nat i) ws 0
                     * cube (0 + inject_Z i * Integral.h op)).
Proof.
  apply (Integral_call_is_weighted_sum cube 0 1 4 "trapezoidal").
  - lia.
  - left. reflexivity.
Defined.

(** X12: for n >= 2 the trapezoidal rule stores h = (b - a) / (n - 1) and n
    weights: h/2 at the indices 0 and n-1, h at every index between. *)
Theorem trapezoidal_weights_shape (f : Q -> Q) (a b : Q) (n : Z) :
  (2 <= n)%Z ->
  exists op ws,
    Integral.__init__ f a b n "trapezoidal" = Py.ret op /\
    Integral.h op = (b - a) / inject_Z (n - 1) /\
    Integral.weights op = Np.Vec ws /\
    Z.of_nat (length ws) = n /\
    forall i, (0 <= i < n)%Z ->
      nth_error ws (Z.to_nat i)
      = Some (trapezoidal_weight (Integral.h op) n i).
Proof.
  intros Hn. eexists. eexists.
  split; [apply init_trapezoidal; lia|]. cbn [Integral.h Integral.weights].
  split; [reflexivity|]. split; [reflexivity|].
  set (h := (b - a) / inject_Z (n - 1)).
  split; [rewrite trapezoidal_length; lia|].
  rewrite trapezoidal_weights_eq.
  assert (Lr : length (map (fun _ : Z => h) (Py.range 1 (n - 1)))
               = Z.to_nat (n - 2)).
  { rewrite length_map, length_range. f_equal. lia. }
  intros i Hi. unfold trapezoidal_weight.
  destruct (i =? 0)%Z eqn:E0; [apply Z.eqb_eq in E0; subst i; reflexivity|].
  apply Z.eqb_neq in E0.
  replace (Z.to_nat i) with (S (Z.to_nat (i - 1))) by lia.
  cbn [app nth_error orb].
  destruct (i =? n - 1)%Z eqn:E1.
  - apply Z.eqb_eq in E1. subst i.
    rewrite nth_error_app2 by (rewrite Lr; lia).
    rewrite Lr. replace (Z.to_nat (n - 1 - 1) - Z.to_nat (n - 2))%nat
      with 0%nat by lia.
    reflexivity.
  - apply Z.eqb_neq in E1.
    rewrite nth_error_app1 by (rewrite Lr; lia).
    rewrite nth_error_map, nth_error_range by lia. reflexivity.
Qed.

Lemma trapezoidal_weights_shape_witness :
  exists op ws,
    Integral.__init__ cube 0 1 4 "trapezoidal" = Py.ret op /\
    Integral.h op = (1 - 0) / inject_Z (4 - 1) /\
    Integral.weights op = Np.Vec ws /\
    Z.of_nat (length ws) = 4%Z /\
    forall i, (0 <= i < 4)%Z ->
      nth_error ws (Z.to_nat i)
      = Some (trapezoidal_weight (Integral.h op) 4 i).
Proof.
  apply (trapezoidal_weights_shape cube 0 1 4). lia.
Defined.

(** X13: for n >= 1 the midpoint rule stores h = (b - a) / n and n weights,
    all equal to h. *)
Theorem midpoint_weights_shape (f : Q -> Q) (a b : Q) (n : Z) :
  (1 <= n)%Z ->
  exists op ws,
    Integral.__init__ f a b n "midpoint" = Py.ret op /\
    Integral.h op = (b - a) / inject_Z n /\
    Integral.weights op = Np.Vec ws /\
    Z.of_nat (length ws) = n /\
    forall i, (0 <= i < n)%Z ->
      nth_error ws (Z.to_nat i) = Some (Integral.h op).
Proof.
  intros Hn. eexists. eexists.
  split; [apply init_midpoint; lia|]. cbn [Integral.h Integral.weights].
  split; [reflexivity|]. split; [reflexivity|].
  split; [rewrite midpoint_length; lia|].
  rewrite midpoint_weights_eq. intros i Hi.
  rewrite nth_error_map, nth_error_range by lia. reflexivity.
Qed.

Lemma midpoint_weights_shape_witness :
  exists op ws,
    Integral.__init__ cube 0 1 1 "midpoint" = Py.ret op /\
    Integral.h op = (1 - 0) / inject_Z 1 /\
    Integral.weights op = Np.Vec ws /\
    Z.of_nat (length ws) = 1%Z /\
    forall i, (0 <= i < 1)%Z ->
      nth_error ws (Z.to_nat i) = Some (Integral.h op).
Proof.
  apply (midpoint_weights_shape cube 0 1 1). lia.
Defined.

(** *** Exactness of the rules *)

Lemma sum_affine_range (A B : Q) (lo : Z) (len : nat) :
  sum_list
    (map (fun i => A + B * inject_Z i)
       (map (fun k => (lo + Z.of_nat k)%Z) (seq 0 len)))
  == inject_Z (Z.of_nat len)
     * (2 * A + B * (2 * inject_Z lo + inject_Z (Z.of_nat len) - 1)) / 2.
Proof.
  induction len as [|len IH].
  - unfold sum_list. cbn [seq map fold_right].
    change (inject_Z (Z.of_nat 0)) with 0. field.
  - rewrite seq_S, !map_app, sum_list_app, IH. cbn [map Nat.add].
    unfold sum_list at 1. cbn [fold_right].
    rewrite Nat2Z.inj_succ. unfold Z.succ.
    rewrite !inject_Z_plus. change (inject_Z 1) with 1. field.
Qed.

Lemma inject_Z_nonzero (n : Z) : n <> 0%Z -> ~ inject_Z n == 0.
Proof.
  intros H E. change 0 with (inject_Z 0) in E.
  apply (proj1 (inject_Z_injective _ _)) in E. contradiction.
Qed.

(** X14: for n >= 2 the trapezoidal rule integrates every affine function
    c*x + d exactly over [a, b]. *)
Theorem trapezoidal_exact_on_affine (c d a b : Q) (n : Z) :
  (2 <= n)%Z ->
  exists v,
    Py.result (integrate (fun t => c * t + d) a b n "trapezoidal") = Py.Ok v /\
    v == affine_integral c d a b.
Proof.
  intros Hn. rewrite integrate_trapezoidal by exact Hn.
  eexists. split; [reflexivity|].
  set (h := (b - a) / inject_Z (n - 1)).
  rewrite trapezoidal_weights_eq.
  rewrite (dot_ends (h / 2) (h / 2) (fun _ => h)
             (fun i => c * (a + inject_Z i * h) + d) n Hn).
  rewrite (sum_list_ext _ (fun i => h * (c * a + d) + h * c * h * inject_Z i))
    by (intros i _; ring).
  unfold Py.range at 1. rewrite sum_affine_range.
  replace (Z.of_nat (Z.to_nat (n - 1 - 1))) with (n - 2)%Z by lia.
  rewrite (interior_count n). change (inject_Z 1) with 1.
  change (inject_Z 0) with 0.
  unfold affine_integral, h. field. apply inject_Z_nonzero. lia.
Qed.

Lemma trapezoidal_exact_on_affine_witness :
  exists v,
    Py.result (integrate (fun t => 3 * t + 1) 0 2 2 "trapezoidal") = Py.Ok v /\
    v == affine_integral 3 1 0 2.
Proof.
  apply (trapezoidal_exact_on_affine 3 1 0 2 2). lia.
Defined.



Lemma sum_list_one (x : Q) : sum_list [x] == x.
Proof. unfold sum_list. cbn [fold_right]. ring. Qed.

Lemma odd_even_index (k : Z) : Z.odd (2 * k + 2) = false.
Proof.
  replace (2 * k + 2)%Z with (0 + 2 * (k + 1))%Z by lia.
  now rewrite Z.odd_add_mul_2.
Qed.

Lemma odd_odd_index (k : Z) : Z.odd (2 * k + 3) = true.
Proof.
  replace (2 * k + 3)%Z with (1 + 2 * (k + 1))%Z by lia.
  now rewrite Z.odd_add_mul_2.
Qed.

Section SimpsonCubic.

Variables c0 c1 c2 c3 a h : Q.

Lemma simpson_panel (p : Q) :
  h / 3 * poly [c0; c1; c2; c3] (a + p * h)
  + 4 * h / 3 * poly [c0; c1; c2; c3] (a + (p + 1) * h)
  + h / 3 * poly [c0; c1; c2; c3] (a + (p + 2) * h)
  == poly (cubic_primitive c0 c1 c2 c3) (a + (p + 2) * h)
     - poly (cubic_primitive c0 c1 c2 c3) (a + p * h).
Proof. unfold cubic_primitive, poly. field. Qed.

Lemma simpson_panels (m : nat) :
  h / 3 * poly [c0; c1; c2; c3] (a + inject_Z 0 * h)
  + sum_list
      (map (fun i => (if (i mod 2 =? 1)%Z then 4 * h / 3 else 2 * h / 3)
                     * poly [c0; c1; c2; c3] (a + inject_Z i * h))
         (map (fun k => (1 + Z.of_nat k)%Z) (seq 0 (S (2 * m)))))
  + h / 3 * poly [c0; c1; c2; c3]
              (a + inject_Z (2 * Z.of_nat m + 2) * h)
  == poly (cubic_primitive c0 c1 c2 c3)
       (a + inject_Z (2 * Z.of_nat m + 2) * h)
     - poly (cubic_primitive c0 c1 c2 c3) a.
Proof.
  induction m as [|m IH].
  - change (seq 0 (S (2 * 0))) with [0%nat]. cbn [map].
    rewrite sum_list_one.
    change (1 + Z.of_nat 0)%Z with 1%Z.
    change (2 * Z.of_nat 0 + 2)%Z with 2%Z.
    change (1 mod 2 =? 1)%Z with true. cbv iota.
    change (inject_Z 0) with 0. change (inject_Z 1) with 1.
    change (inject_Z 2) with 2.
    unfold cubic_primitive, poly. field.
  - replace (S (2 * S m)) with (S (S (S (2 * m)))) by lia.
    do 2 rewrite seq_S. rewrite !map_app, !sum_list_app. cbn [map Nat.add].
    rewrite !sum_list_one.
    replace (1 + Z.of_nat (S (2 * m)))%Z with (2 * Z.of_nat m + 2)%Z by lia.
    replace (1 + Z.of_nat (S (S (2 * m))))%Z
      with (2 * Z.of_nat m + 2 + 1)%Z by lia.
    replace (2 * Z.of_nat (S m) + 2)%Z
      with (2 * Z.of_nat m + 2 + 2)%Z by lia.
    rewrite !mod2_odd.
    replace (Z.odd (2 * Z.of_nat m + 2 + 1)) with true
      by (symmetry; rewrite <- (odd_odd_index (Z.of_nat m)); f_equal; lia).
    rewrite odd_even_index.
    rewrite !(inject_Z_plus (2 * Z.of_nat m + 2)).
    change (inject_Z 1) with 1. change (inject_Z 2) with 2.
    pose proof (simpson_panel (inject_Z (2 * Z.of_nat m + 2))) as P.
    set (S := sum_list _) in *.
    set (p := inject_Z (2 * Z.of_nat m + 2)) in *.
    set (u0 := poly [c0; c1; c2; c3] (a + inject_Z 0 * h)) in *.
    set (u1 := poly [c0; c1; c2; c3] (a + p * h)) in *.
    set (u2 := poly [c0; c1; c2; c3] (a + (p + 1) * h)) in *.
    set (u3 := poly [c0; c1; c2; c3] (a + (p + 2) * h)) in *.
    transitivity ((h / 3 * u0 + S + h / 3 * u1)
                  + (h / 3 * u1 + 4 * h / 3 * u2 + h / 3 * u3));
      [field|].
    rewrite IH, P. ring.
Qed.

End SimpsonCubic.

Lemma odd_count (n : Z) :
  (3 <= n)%Z -> Z.odd n = true ->
  exists m : nat, n = (2 * Z.of_nat m + 3)%Z.
Proof.
  intros Hn Ho. exists (Z.to_nat (n / 2 - 1)).
  pose proof (Z_div_mod_eq_full n 2) as D.
  rewrite Zmod_odd, Ho in D. lia.
Qed.

(** X16: with an odd n >= 3, Simpson's rule integrates every polynomial of
    degree at most 3 exactly over [a, b]. *)
Theorem simpson_exact_on_cubics (c0 c1 c2 c3 a b : Q) (n : Z) :
  (3 <= n)%Z -> Z.odd n = true ->
  exists v,
    Py.result (integrate (poly [c0; c1; c2; c3]) a b n "simpson") = Py.Ok v /\
    v == poly (cubic_primitive c0 c1 c2 c3) b
         - poly (cubic_primitive c0 c1 c2 c3) a.
Proof.
  intros Hn Ho. rewrite integrate_simpson by lia.
  eexists. split; [reflexivity|].
  destruct (odd_count n Hn Ho) as [m ->].
  replace (2 * Z.of_nat m + 3 - 1)%Z with (2 * Z.of_nat m + 2)%Z by lia.
  set (h := (b - a) / inject_Z (2 * Z.of_nat m + 2)).
  rewrite simpson_weights_eq.
  rewrite (dot_ends (h / 3) (h / 3)
             (fun i => if (i mod 2 =? 1)%Z then 4 * h / 3 else 2 * h / 3)
             (fun i => poly [c0; c1; c2; c3] (a + inject_Z i * h))
             (2 * Z.of_nat m + 3)) by lia.
  unfold Py.range.
  replace (Z.to_nat (2 * Z.of_nat m + 3 - 1 - 1)) with (S (2 * m)) by lia.
  replace (2 * Z.of_nat m + 3 - 1)%Z with (2 * Z.of_nat m + 2)%Z by lia.
  rewrite (simpson_panels c0 c1 c2 c3 a h m).
  assert (Hb : a + inject_Z (2 * Z.of_nat m + 2) * h == b).
  { unfold h. field. apply inject_Z_nonzero. lia. }
  unfold cubic_primitive, poly. rewrite Hb. ring.
Qed.

Lemma simpson_exact_on_cubics_witness :
  exists v,
    Py.result (integrate (poly [1; 0; 0; 1]) 0 2 5 "simpson") = Py.Ok v /\
    v == poly (cubic_primitive 1 0 0 1) 2 - poly (cubic_primitive 1 0 0 1) 0.
Proof.
  apply (simpson_exact_on_cubics 1 0 0 1 0 2 5).
  - lia.
  - reflexivity.
Defined.

(** *** Linearity, and the edges of the quadrature *)









(** X20: the default rule name of the constructor, "trapz", is not a
    recognised rule: unless n = 1, constructing with the default raises
    [NotImplementedError] with the message
    "Trapz method is not implemented yet!". *)
Theorem Integral_default_method_is_rejected (f : Q -> Q) (a b : Q) (n : Z) :
  n <> 1%Z ->
  Integral.__init__ f a b n Integral.default_method
  = Py.raise (Py.NotImplementedError "Trapz method is not implemented yet!").
Proof.
  intros Hn. rewrite init_unrecognized; [reflexivity| |exact Hn].
  intros [E|[E|E]]; discriminate E.
Qed.

Lemma Integral_default_method_is_rejected_witness :
  Integral.__init__ cube 0 1 100 Integral.default_method
  = Py.raise (Py.NotImplementedError "Trapz method is not implemented yet!").
Proof.
  apply (Integral_default_method_is_rejected cube 0 1 100). discriminate.
Defined.

(** *** Which samples matter *)




